(** * InsForge OAuth example client: PKCE handshake, verified

    A shallow embedding of the request handlers of the example client
    (`/auth/login`, `/auth/login-popup`, `/auth/callback`,
    `/auth/callback-popup`, `/api/organizations`) and of the PKCE helpers
    they use, followed by the properties of the handshake.

    Layout: the encoders of Node's [Buffer] and the SHA-256 digest, the
    JavaScript values the handlers touch, the handler monad, the handlers
    themselves, and then the lemmas and theorems. *)

From Stdlib Require Import ZArith NArith List Ascii String DecimalString Lia.
From Stdlib.Strings Require Import Byte.
From stdpp Require Import base strings gmap.

Local Open Scope string_scope.
Set Warnings "-register-all".

(* ===================================================================== *)
(** ** Buffer encoders: [toString('hex')] and [toString('base64url')]    *)
(* ===================================================================== *)

Module Encoding.

(** The character at position [n] of an alphabet (NUL out of range, which
    the encoders never reach). *)
Definition alphabet_get (tbl : string) (n : N) : ascii :=
  match String.get (N.to_nat n) tbl with
  | Some c => c
  | None => zero
  end.

Definition hex_alphabet : string := "0123456789abcdef".

Definition base64url_alphabet : string :=
  "ABCDEFGHIJKLMNOPQRSTUVWXYZabcdefghijklmnopqrstuvwxyz0123456789-_".

Definition hexdigit (n : N) : ascii := alphabet_get hex_alphabet n.
Definition sextet (n : N) : ascii := alphabet_get base64url_alphabet n.

(** [buf.toString('hex')]: two lowercase digits per byte. *)
Fixpoint hex (buf : list byte) : string :=
  match buf with
  | [] => ""
  | b :: rest =>
      let x := Byte.to_N b in
      String (hexdigit (N.shiftr x 4))
        (String (hexdigit (N.land x 15)) (hex rest))
  end.

(** [buf.toString('base64url')]: RFC 4648 section 5 alphabet, three bytes
    to four characters, and no [=] padding on the last group. *)
Fixpoint base64url (buf : list byte) : string :=
  match buf with
  | [] => ""
  | [a] =>
      let x := Byte.to_N a in
      String (sextet (N.shiftr x 2))
        (String (sextet (N.shiftl (N.land x 3) 4)) "")
  | [a; b] =>
      let x := Byte.to_N a in
      let y := Byte.to_N b in
      String (sextet (N.shiftr x 2))
        (String (sextet (N.lor (N.shiftl (N.land x 3) 4) (N.shiftr y 4)))
          (String (sextet (N.shiftl (N.land y 15) 2)) ""))
  | a :: b :: c :: rest =>
      let x := Byte.to_N a in
      let y := Byte.to_N b in
      let z := Byte.to_N c in
      String (sextet (N.shiftr x 2))
        (String (sextet (N.lor (N.shiftl (N.land x 3) 4) (N.shiftr y 4)))
          (String (sextet (N.lor (N.shiftl (N.land y 15) 2) (N.shiftr z 6)))
            (String (sextet (N.land z 63)) (base64url rest))))
  end.

(** Membership of a character in an alphabet, as a boolean. *)
Fixpoint in_alphabet (tbl : string) (c : ascii) : bool :=
  match tbl with
  | EmptyString => false
  | String d rest => Ascii.eqb c d || in_alphabet rest c
  end.

Fixpoint all_chars (p : ascii -> bool) (s : string) : bool :=
  match s with
  | EmptyString => true
  | String c rest => p c && all_chars p rest
  end.

Fixpoint occurs (c : ascii) (s : string) : bool :=
  match s with
  | EmptyString => false
  | String d rest => Ascii.eqb c d || occurs c rest
  end.

(** The inverse of [base64url], to show that the encoding loses nothing:
    the position of a character in the alphabet, and four characters back
    to three bytes. *)
Fixpoint index_of (c : ascii) (tbl : string) : N :=
  match tbl with
  | EmptyString => 0
  | String d rest => if Ascii.eqb c d then 0 else N.succ (index_of c rest)
  end.

Definition unsextet (c : ascii) : N := index_of c base64url_alphabet.

Definition byte_of_N (n : N) : byte :=
  match Byte.of_N n with
  | Some b => b
  | None => x00
  end.

Fixpoint base64url_decode (s : string) : list byte :=
  match s with
  | String c1 (String c2 EmptyString) =>
      let i1 := unsextet c1 in
      let i2 := unsextet c2 in
      [byte_of_N (N.lor (N.shiftl i1 2) (N.shiftr i2 4))]
  | String c1 (String c2 (String c3 EmptyString)) =>
      let i1 := unsextet c1 in
      let i2 := unsextet c2 in
      let i3 := unsextet c3 in
      [byte_of_N (N.lor (N.shiftl i1 2) (N.shiftr i2 4));
       byte_of_N (N.lor (N.shiftl (N.land i2 15) 4) (N.shiftr i3 2))]
  | String c1 (String c2 (String c3 (String c4 rest))) =>
      let i1 := unsextet c1 in
      let i2 := unsextet c2 in
      let i3 := unsextet c3 in
      let i4 := unsextet c4 in
      byte_of_N (N.lor (N.shiftl i1 2) (N.shiftr i2 4))
      :: byte_of_N (N.lor (N.shiftl (N.land i2 15) 4) (N.shiftr i3 2))
      :: byte_of_N (N.lor (N.shiftl (N.land i3 3) 6) i4)
      :: base64url_decode rest
  | _ => []
  end.

(** Every byte, for properties checked byte by byte. *)
Definition all_bytes : list byte :=
  map (fun n => default x00 (Byte.of_nat n)) (seq 0 256).

(** The second and third sextet of a group, from two neighbouring bytes. *)
Definition i2 (x y : N) : N := N.lor (N.shiftl (N.land x 3) 4) (N.shiftr y 4).
Definition i3 (x y : N) : N := N.lor (N.shiftl (N.land x 15) 2) (N.shiftr y 6).

(** What decoding needs of two neighbouring bytes, and of one byte. *)
Definition pair_ok (a b : byte) : bool :=
  let x := Byte.to_N a in
  let y := Byte.to_N b in
  let u2 := unsextet (sextet (i2 x y)) in
  let u3 := unsextet (sextet (i3 x y)) in
  Byte.eqb (byte_of_N (N.lor (N.shiftl (unsextet (sextet (N.shiftr x 2))) 2)
                             (N.shiftr u2 4))) a
  && N.eqb (N.land u2 15) (N.shiftr y 4)
  && N.eqb (N.shiftr u3 2) (N.land x 15)
  && N.eqb (N.land u3 3) (N.shiftr y 6)
  && in_alphabet base64url_alphabet (sextet (i2 x y))
  && in_alphabet base64url_alphabet (sextet (i3 x y)).

Definition single_ok (a : byte) : bool :=
  let x := Byte.to_N a in
  Byte.eqb (byte_of_N (N.lor (N.shiftl (N.shiftr x 4) 4) (N.land x 15))) a
  && Byte.eqb (byte_of_N (N.lor (N.shiftl (N.shiftr x 6) 6)
                                (unsextet (sextet (N.land x 63))))) a
  && Byte.eqb (byte_of_N (N.lor (N.shiftl (unsextet (sextet (N.shiftr x 2))) 2)
                 (N.shiftr (unsextet (sextet (N.shiftl (N.land x 3) 4))) 4))) a
  && N.eqb (N.shiftr (unsextet (sextet (N.shiftl (N.land x 15) 2))) 2) (N.land x 15)
  && in_alphabet base64url_alphabet (sextet (N.shiftr x 2))
  && in_alphabet base64url_alphabet (sextet (N.land x 63))
  && in_alphabet base64url_alphabet (sextet (N.shiftl (N.land x 3) 4))
  && in_alphabet base64url_alphabet (sextet (N.shiftl (N.land x 15) 2))
  && in_alphabet hex_alphabet (hexdigit (N.shiftr x 4))
  && in_alphabet hex_alphabet (hexdigit (N.land x 15)).

End Encoding.

(* ===================================================================== *)
(** ** SHA-256, as [crypto.createHash('sha256')] computes it (FIPS 180-4) *)
(* ===================================================================== *)

Module SHA256.
Local Open Scope Z_scope.

(** 32-bit words are [Z] with the wrap-around written out. *)
Definition w32 (x : Z) : Z := Z.land x 4294967295.
Definition add32 (x y : Z) : Z := w32 (x + y).
Definition rotr (n x : Z) : Z :=
  Z.lor (Z.shiftr x n) (w32 (Z.shiftl x (32 - n))).
Definition not32 (x : Z) : Z := Z.lxor x 4294967295.

Definition Ch (x y z : Z) : Z := Z.lxor (Z.land x y) (Z.land (not32 x) z).
Definition Maj (x y z : Z) : Z :=
  Z.lxor (Z.lxor (Z.land x y) (Z.land x z)) (Z.land y z).
Definition Sigma0 (x : Z) : Z := Z.lxor (Z.lxor (rotr 2 x) (rotr 13 x)) (rotr 22 x).
Definition Sigma1 (x : Z) : Z := Z.lxor (Z.lxor (rotr 6 x) (rotr 11 x)) (rotr 25 x).
Definition sigma0 (x : Z) : Z := Z.lxor (Z.lxor (rotr 7 x) (rotr 18 x)) (Z.shiftr x 3).
Definition sigma1 (x : Z) : Z := Z.lxor (Z.lxor (rotr 17 x) (rotr 19 x)) (Z.shiftr x 10).

(** The round constants (fractional parts of the cube roots of the first
    64 primes) and the initial hash value (of the square roots of the first
    8), as decimal numbers. *)
Definition K : list Z :=
  [ 1116352408; 1899447441; 3049323471; 3921009573;
     961987163; 1508970993; 2453635748; 2870763221;
    3624381080;  310598401;  607225278; 1426881987;
    1925078388; 2162078206; 2614888103; 3248222580;
    3835390401; 4022224774;  264347078;  604807628;
     770255983; 1249150122; 1555081692; 1996064986;
    2554220882; 2821834349; 2952996808; 3210313671;
    3336571891; 3584528711;  113926993;  338241895;
     666307205;  773529912; 1294757372; 1396182291;
    1695183700; 1986661051; 2177026350; 2456956037;
    2730485921; 2820302411; 3259730800; 3345764771;
    3516065817; 3600352804; 4094571909;  275423344;
     430227734;  506948616;  659060556;  883997877;
     958139571; 1322822218; 1537002063; 1747873779;
    1955562222; 2024104815; 2227730452; 2361852424;
    2428436474; 2756734187; 3204031479; 3329325298 ].

Definition H0 : list Z :=
  [ 1779033703; 3144134277; 1013904242; 2773480762;
    1359893119; 2600822924;  528734635; 1541459225 ].

(** Big-endian bytes of a number, [n] of them. *)
Fixpoint be_bytes (n : nat) (x : Z) : list Z :=
  match n with
  | O => []
  | S m => Z.land (Z.shiftr x (8 * Z.of_nat m)) 255 :: be_bytes m x
  end.

(** Padding: a 1 bit, zeros up to 56 modulo 64, the bit length on 64 bits. *)
Definition pad (msg : list Z) : list Z :=
  let len := Z.of_nat (length msg) in
  let zeros := Z.to_nat ((55 - len) mod 64) in
  msg ++ 128 :: repeat 0 zeros ++ be_bytes 8 (8 * len).

Fixpoint words (bs : list Z) (n : nat) : list Z :=
  match n, bs with
  | S m, a :: b :: c :: d :: rest =>
      Z.lor (Z.shiftl a 24) (Z.lor (Z.shiftl b 16) (Z.lor (Z.shiftl c 8) d))
        :: words rest m
  | _, _ => []
  end.

(** The message schedule, newest word first: [rev_w] holds W[t-1], W[t-2], ... *)
Fixpoint schedule (n : nat) (rev_w : list Z) : list Z :=
  match n with
  | O => rev_w
  | S m =>
      let w := add32 (add32 (sigma1 (nth 1 rev_w 0)) (nth 6 rev_w 0))
                     (add32 (sigma0 (nth 14 rev_w 0)) (nth 15 rev_w 0)) in
      schedule m (w :: rev_w)
  end.

Record regs := Regs { ra : Z; rb : Z; rc : Z; rd : Z; re : Z; rf : Z; rg : Z; rh : Z }.

Definition round (r : regs) (kw : Z * Z) : regs :=
  let t1 := add32 (add32 (add32 (rh r) (Sigma1 (re r))) (Ch (re r) (rf r) (rg r)))
                  (add32 (fst kw) (snd kw)) in
  let t2 := add32 (Sigma0 (ra r)) (Maj (ra r) (rb r) (rc r)) in
  Regs (add32 t1 t2) (ra r) (rb r) (rc r) (add32 (rd r) t1) (re r) (rf r) (rg r).

Definition regs_of (h : list Z) : regs :=
  Regs (nth 0 h 0) (nth 1 h 0) (nth 2 h 0) (nth 3 h 0)
       (nth 4 h 0) (nth 5 h 0) (nth 6 h 0) (nth 7 h 0).

Definition compress (h : list Z) (block : list Z) : list Z :=
  let w := rev (schedule 48 (rev (words block 16))) in
  let r := fold_left round (combine K w) (regs_of h) in
  [ add32 (nth 0 h 0) (ra r); add32 (nth 1 h 0) (rb r);
    add32 (nth 2 h 0) (rc r); add32 (nth 3 h 0) (rd r);
    add32 (nth 4 h 0) (re r); add32 (nth 5 h 0) (rf r);
    add32 (nth 6 h 0) (rg r); add32 (nth 7 h 0) (rh r) ].

Fixpoint blocks (n : nat) (h : list Z) (bs : list Z) : list Z :=
  match n with
  | O => h
  | S m => blocks m (compress h (firstn 64 bs)) (skipn 64 bs)
  end.

Definition byte_of_Z (x : Z) : byte :=
  match Byte.of_N (Z.to_N (Z.land x 255)) with
  | Some b => b
  | None => x00
  end.

(** The 32-byte digest of a message. *)
Definition sha256 (msg : list byte) : list byte :=
  let bs := pad (map (fun b => Z.of_N (Byte.to_N b)) msg) in
  let h := blocks (length bs / 64) H0 bs in
  map byte_of_Z (flat_map (be_bytes 4) h).

End SHA256.

(* ===================================================================== *)
(** ** The JavaScript values the handlers touch                          *)
(* ===================================================================== *)

Module JS.

(** Parsed JSON bodies, parsed query strings and session properties.
    Numbers are the integers (the bodies of the endpoints carry no other
    number than [expires_in]); [VUndef] is what reading a missing property
    gives. An object is its list of properties, first binding first. *)
Inductive value : Type :=
| VUndef
| VNull
| VBool (b : bool)
| VNum (z : Z)
| VStr (s : string)
| VArr (items : list value)
| VObj (props : list (string * value)).

(** ToBoolean: what [if (v)], [!v], [a && b] and [a || b] test. *)
Definition truthy (v : value) : bool :=
  match v with
  | VUndef | VNull => false
  | VBool b => b
  | VNum z => negb (Z.eqb z 0)
  | VStr s => negb (String.eqb s "")
  | VArr _ | VObj _ => true
  end.

(** [a || b] *)
Definition or_else (a b : value) : value := if truthy a then a else b.

(** ToString, as a template literal applies it to [${v}]. It is what the
    code prints for a string, a boolean, null, undefined, an integer below
    2^53 in magnitude, an array of such values, and an object that has no
    [toString] property of its own. Outside these (a number the handlers
    get as a floating-point value, an object whose own [toString] makes the
    conversion throw) the text of a page or of a header is stated under the
    hypothesis that the value is a string or [textual]. *)
Fixpoint toString (v : value) : string :=
  match v with
  | VUndef => "undefined"
  | VNull => "null"
  | VBool true => "true"
  | VBool false => "false"
  | VNum z => NilZero.string_of_int (Z.to_int z)
  | VStr s => s
  | VArr items =>
      let item x := match x with VUndef | VNull => "" | _ => toString x end in
      (fix join (l : list value) : string :=
         match l with
         | [] => ""
         | [x] => item x
         | x :: rest => item x ++ "," ++ join rest
         end) items
  | VObj _ => "[object Object]"
  end.

(** [a === b]. Arrays and objects compare by reference; the two sides of
    every comparison in the handlers come from different places (the parsed
    query and the session store), so two of them are never the same object. *)
Definition strict_eq (a b : value) : bool :=
  match a, b with
  | VUndef, VUndef => true
  | VNull, VNull => true
  | VBool x, VBool y => Bool.eqb x y
  | VNum x, VNum y => Z.eqb x y
  | VStr x, VStr y => String.eqb x y
  | _, _ => false
  end.

Fixpoint assoc (k : string) (props : list (string * value)) : value :=
  match props with
  | [] => VUndef
  | (k', v) :: rest => if String.eqb k k' then v else assoc k rest
  end.

(** [v.k] for a property name [k] that no prototype defines (the handlers
    read [error], [message], [access_token], [refresh_token] and [user]):
    [None] is the TypeError of reading a property of null or undefined. *)
Definition prop (v : value) (k : string) : option value :=
  match v with
  | VUndef | VNull => None
  | VObj props => Some (assoc k props)
  | _ => Some VUndef
  end.

(** [s.endsWith(suffix)]: the last [length suffix] characters of [s] are
    [suffix]; false when [s] is the shorter one. *)
Definition endsWith (s suffix : string) : bool :=
  let n := String.length s in
  let k := String.length suffix in
  if Nat.leb k n then String.eqb (substring (n - k) k s) suffix else false.

(** The values on which [v?.endsWith(...)] does not throw: null and
    undefined short-circuit, a string has the method. *)
Definition nullish_or_string (v : value) : bool :=
  match v with
  | VUndef | VNull | VStr _ => true
  | _ => false
  end.

(** What a query parameter given once or several times parses to: a string,
    or an array of strings. A template literal prints these, and an absent
    parameter, as [toString] says. *)
Definition textual (v : value) : bool :=
  match v with
  | VStr _ => true
  | VArr items =>
      forallb (fun x => match x with VStr _ => true | _ => false end) items
  | _ => false
  end.

Definition absent_or_textual (v : value) : bool :=
  match v with
  | VUndef => true
  | _ => textual v
  end.

(** The text of [message || ''] for a message that is a string or absent. *)
Definition text_or_empty (v : value) : string :=
  match v with
  | VStr s => s
  | _ => ""
  end.

End JS.

(* ===================================================================== *)
(** ** The server                                                        *)
(* ===================================================================== *)

Module Server.
Import Encoding SHA256 JS.

Record Config := {
  INSFORGE_CLIENT_ID : string;
  INSFORGE_CLIENT_SECRET : string;
  INSFORGE_URL : string;
  CALLBACK_URL : string;
  SCOPES : string;
  PORT : Z
}.

(** The values of [config] when the environment sets none of them. *)
Definition default_config : Config := {|
  INSFORGE_CLIENT_ID := "your_client_id";
  INSFORGE_CLIENT_SECRET := "your_client_secret";
  INSFORGE_URL := "http://localhost:3000";
  CALLBACK_URL := "http://localhost:4000/auth/callback";
  SCOPES := "user:read organizations:read projects:read projects:write";
  PORT := 4000
|}.

(** An outbound [fetch(url, {method, headers, body})]; [body] is the value
    handed to [JSON.stringify]. *)
Record request := Request {
  url : string;
  method : string;
  headers : list (string * string);
  body : option value
}.

(** What the network answers: [fetch] rejects, or resolves to a response
    with its [ok] flag and its body as [response.json()] parses it ([None]
    when the body is not JSON and [json()] rejects). *)
Inductive fetch_result : Type :=
| NetworkError
| Response (ok : bool) (json : option value).

(** What a handler writes to [res]. *)
Inductive response : Type :=
| Send (status : Z) (text : string)
| Json (status : Z) (data : value)
| Redirect (location : string).

(** The request-bound state: [req.session], the outbound calls made so far
    (oldest first) and the number of random bytes drawn. *)
Record state := State {
  session : gmap string value;
  calls : list request;
  drawn : nat
}.

(** A statement falls through to the next one, returns from the handler
    with the response written, or throws. *)
Inductive step (A : Type) : Type :=
| Next (a : A)
| Return (r : response)
| Throw.
Arguments Next {A} a.
Arguments Return {A} r.
Arguments Throw {A}.

Definition M (A : Type) : Type := state -> step A * state.

Definition ret {A} (a : A) : M A := fun st => (Next a, st).

Definition bind {A B} (m : M A) (k : A -> M B) : M B :=
  fun st =>
    match m st with
    | (Next a, st') => k a st'
    | (Return r, st') => (Return r, st')
    | (Throw, st') => (Throw, st')
    end.

Definition throw {A} : M A := fun st => (Throw, st).
Definition respond {A} (r : response) : M A := fun st => (Return r, st).

(** [try { body } catch (err) { handler }]; what [body] did to the session
    before it threw stays done. *)
Definition try_catch {A} (body handler : M A) : M A :=
  fun st =>
    match body st with
    | (Throw, st') => handler st'
    | other => other
    end.

Definition when (b : bool) (m : M unit) : M unit := if b then m else ret tt.

(** The handlers are written with stdpp's monad notations:
    [x ← m; k] binds and [m ;; k] sequences. *)
#[global] Instance M_ret : MRet M := @ret.
#[global] Instance M_bind : MBind M := fun A B k m => bind m k.

(** [o.k] on [req.query] and [req.session]: undefined when [k] is missing. *)
Definition field (o : gmap string value) (k : string) : value :=
  default VUndef (o !! k).

(** [req.session.k], [req.session.k = v] and [delete req.session.k]. *)
Definition session_get (k : string) : M value :=
  fun st => (Next (field (session st) k), st).
Definition session_set (k : string) (v : value) : M unit :=
  fun st => (Next tt, State (<[k := v]> (session st)) (calls st) (drawn st)).
Definition session_delete (k : string) : M unit :=
  fun st => (Next tt, State (delete k (session st)) (calls st) (drawn st)).

(** [v.k] inside a handler. *)
Definition get (v : value) (k : string) : M value :=
  match prop v k with
  | Some x => ret x
  | None => throw
  end.

(** [v?.endsWith(suffix)] *)
Definition optional_endsWith (v : value) (suffix : string) : M value :=
  match v with
  | VUndef | VNull => ret VUndef
  | VStr s => ret (VBool (endsWith s suffix))
  | _ => throw
  end.

(** [v?.substring(0, 20) + '...']: a string for every string and for null
    and undefined, a TypeError for any other value. *)
Definition optional_substring (v : value) : M string :=
  match v with
  | VUndef | VNull => ret "undefined..."
  | VStr s => ret (substring 0 20 s ++ "...")
  | _ => throw
  end.

(** The [URL] object: the part before the query and the search parameters.
    [URL_new] is [new URL] on the addresses the handlers build from a
    [config.INSFORGE_URL] that is a [plain_origin] (below), as its default
    is: parsing keeps the string and finds no parameter. On other values
    [new URL] may rewrite the address, find parameters in it or throw; what
    is proved of the address of a redirect assumes [plain_origin]. *)
Record URL := { href : string; searchParams : list (string * string) }.

Definition URL_new (s : string) : URL := {| href := s; searchParams := [] |}.

(** The values of [config.INSFORGE_URL] that are an origin in normal form:
    [http://] or [https://], a host of labels of lower-case letters and
    digits which each begin with a letter, joined by dots, and at most a
    port, written without leading zero, below 65536 and other than the
    default of the scheme. With [/api/oauth/v1/authorize] appended, such a
    string is what [new URL] gives back as [href], and it has no query. *)
Definition is_lower (c : ascii) : bool :=
  let n := N_of_ascii c in ((97 <=? n) && (n <=? 122))%N.

Definition is_digit (c : ascii) : bool :=
  let n := N_of_ascii c in ((48 <=? n) && (n <=? 57))%N.

Fixpoint host_labels (start : bool) (s : string) : bool :=
  match s with
  | EmptyString => negb start
  | String c rest =>
      if start then is_lower c && host_labels false rest
      else if Ascii.eqb c "." then host_labels true rest
      else (is_lower c || is_digit c) && host_labels false rest
  end.

Fixpoint port_value (acc : N) (s : string) : option N :=
  match s with
  | EmptyString => Some acc
  | String c rest =>
      if is_digit c then port_value (acc * 10 + (N_of_ascii c - 48)) rest
      else None
  end.

Definition port_ok (default_port : N) (s : string) : bool :=
  match s with
  | EmptyString => false
  | String c _ =>
      negb (Ascii.eqb c "0")
      && match port_value 0 s with
         | Some n => ((n <=? 65535) && negb (n =? default_port))%N
         | None => false
         end
  end.

Fixpoint split_colon (s : string) : string * option string :=
  match s with
  | EmptyString => ("", None)
  | String c rest =>
      if Ascii.eqb c ":" then ("", Some rest)
      else let (host, port) := split_colon rest in (String c host, port)
  end.

Definition authority_ok (default_port : N) (s : string) : bool :=
  let (host, port) := split_colon s in
  host_labels true host
  && match port with
     | None => true
     | Some p => port_ok default_port p
     end.

Definition after_prefix (p s : string) : option string :=
  if String.prefix p s
  then Some (substring (String.length p) (String.length s - String.length p) s)
  else None.

Definition plain_origin (s : string) : bool :=
  match after_prefix "http://" s, after_prefix "https://" s with
  | Some rest, _ => authority_ok 80 rest
  | None, Some rest => authority_ok 443 rest
  | None, None => false
  end.

(** [searchParams.set(k, v)]: the first [k] takes the value, later ones
    go, and a new name is appended. *)
Fixpoint params_remove (k : string) (ps : list (string * string)) :=
  match ps with
  | [] => []
  | (k', v') :: rest =>
      if String.eqb k k' then params_remove k rest
      else (k', v') :: params_remove k rest
  end.

Fixpoint params_set (k v : string) (ps : list (string * string)) :=
  match ps with
  | [] => [(k, v)]
  | (k', v') :: rest =>
      if String.eqb k k' then (k, v) :: params_remove k rest
      else (k', v') :: params_set k v rest
  end.

Definition searchParams_set (k v : string) (u : URL) : URL :=
  {| href := href u; searchParams := params_set k v (searchParams u) |}.

(** The application/x-www-form-urlencoded serializer of [URLSearchParams]:
    letters, digits and [*-._] stay, a space is [+], any other byte is
    [%XX] in upper case. *)
Definition is_unreserved (c : ascii) : bool :=
  let n := N_of_ascii c in
  ((48 <=? n) && (n <=? 57) || (65 <=? n) && (n <=? 90)
   || (97 <=? n) && (n <=? 122) || in_alphabet "*-._" c)%N.

Definition percent_encode (c : ascii) : string :=
  if is_unreserved c then String c ""
  else if Ascii.eqb c " " then "+"
  else
    let n := N_of_ascii c in
    String "%" (String (alphabet_get "0123456789ABCDEF" (N.shiftr n 4))
      (String (alphabet_get "0123456789ABCDEF" (N.land n 15)) "")).

Fixpoint urlencode (s : string) : string :=
  match s with
  | EmptyString => ""
  | String c rest => percent_encode c ++ urlencode rest
  end.

Fixpoint serialize (ps : list (string * string)) : string :=
  match ps with
  | [] => ""
  | [(k, v)] => urlencode k ++ "=" ++ urlencode v
  | (k, v) :: rest => urlencode k ++ "=" ++ urlencode v ++ "&" ++ serialize rest
  end.

Definition URL_toString (u : URL) : string :=
  match searchParams u with
  | [] => href u
  | ps => href u ++ "?" ++ serialize ps
  end.

Definition dquote : string := String (ascii_of_nat 34) "".

(** The page [sendError] writes around its message. *)
Definition authorization_failed (message : string) : string :=
  "
      <h1>Authorization Failed</h1>
      <p>" ++ message ++ "</p>
      <a href=" ++ dquote ++ "/" ++ dquote ++ ">Go back</a>
    ".

(** The completion page of popup mode. *)
Definition popup_page : string :=
  "
        <!DOCTYPE html>
        <html>
        <head><title>Authorization Complete</title></head>
        <body>
          <h2>Authorization successful!</h2>
          <p>This window will close automatically...</p>
          <script>
            console.log('[Popup] OAuth complete, notifying parent...');

            // Use localStorage to notify parent (storage event fires in other windows)
            localStorage.setItem('oauth_complete', Date.now().toString());
            console.log('[Popup] Set oauth_complete in localStorage');

            // Try to close the popup window
            function closePopup() {
              try {
                window.close();
              } catch (e) {
                console.log('[Popup] Could not close window:', e);
              }
            }

            // Close after a short delay to ensure localStorage event fires
            setTimeout(closePopup, 300);

            // Fallback: if window didn't close after 2 seconds, show a manual close link
            setTimeout(() => {
              if (!window.closed) {
                document.body.innerHTML = '<h2>Authorization successful!</h2><p>You can close this tab and return to the app.</p><button onclick="
  ++ dquote ++ "window.close()"
  ++ dquote ++ " style="
  ++ dquote ++ "padding: 10px 20px; font-size: 16px; cursor: pointer;"
  ++ dquote ++ ">Close this tab</button>';
              }
            }, 2000);
          </script>
        </body>
        </html>
      ".

(** [generateCodeChallenge]: SHA-256 of the verifier, base64url. *)
Definition generateCodeChallenge (verifier : string) : string :=
  base64url (sha256 (list_byte_of_string verifier)).

Section Handlers.

Variable config : Config.
(** The network, as the handlers see it. *)
Variable upstream : request -> fetch_result.
(** The bytes [crypto.randomBytes] hands out, in order. *)
Variable entropy : nat -> byte.

Definition randomBytes (n : nat) : M (list byte) :=
  fun st =>
    (Next (map entropy (seq (drawn st) n)),
     State (session st) (calls st) (drawn st + n)).

Definition generateCodeVerifier : M string :=
  buf ← randomBytes 32; ret (base64url buf).

Definition generateState : M string :=
  buf ← randomBytes 16; ret (hex buf).

(** [await fetch(...)]: the call is recorded, then rejects or resolves. *)
Definition fetch (r : request) : M (bool * option value) :=
  fun st =>
    let st' := State (session st) (calls st ++ [r]) (drawn st) in
    match upstream r with
    | NetworkError => (Throw, st')
    | Response ok json => (Next (ok, json), st')
    end.

(** [await response.json()] *)
Definition json_of (resp : bool * option value) : M value :=
  match snd resp with
  | Some v => ret v
  | None => throw
  end.

Definition authorize_url (state codeChallenge : string) : URL :=
  let authUrl := URL_new (INSFORGE_URL config ++ "/api/oauth/v1/authorize") in
  let authUrl := searchParams_set "client_id" (INSFORGE_CLIENT_ID config) authUrl in
  let authUrl := searchParams_set "redirect_uri" (CALLBACK_URL config) authUrl in
  let authUrl := searchParams_set "response_type" "code" authUrl in
  let authUrl := searchParams_set "scope" (SCOPES config) authUrl in
  let authUrl := searchParams_set "state" state authUrl in
  let authUrl := searchParams_set "code_challenge" codeChallenge authUrl in
  searchParams_set "code_challenge_method" "S256" authUrl.

(** [GET /auth/login] *)
Definition auth_login : M unit :=
  codeVerifier ← generateCodeVerifier;
  let codeChallenge := generateCodeChallenge codeVerifier in
  state ← generateState;
  session_set "oauthState" (VStr state) ;;
  session_set "codeVerifier" (VStr codeVerifier) ;;
  let authUrl := authorize_url state codeChallenge in
  respond (Redirect (URL_toString authUrl)).

(** [GET /auth/login-popup] *)
Definition auth_login_popup : M unit :=
  codeVerifier ← generateCodeVerifier;
  let codeChallenge := generateCodeChallenge codeVerifier in
  stateToken ← generateState;
  let state := stateToken ++ ":popup" in
  session_set "oauthState" (VStr state) ;;
  session_set "codeVerifier" (VStr codeVerifier) ;;
  let authUrl := authorize_url state codeChallenge in
  respond (Redirect (URL_toString authUrl)).

Definition token_request (code codeVerifier : value) : request :=
  Request (INSFORGE_URL config ++ "/api/oauth/v1/token") "POST"
    [("Content-Type", "application/json")]
    (Some (VObj [ ("grant_type", VStr "authorization_code");
                  ("code", code);
                  ("redirect_uri", VStr (CALLBACK_URL config));
                  ("client_id", VStr (INSFORGE_CLIENT_ID config));
                  ("client_secret", VStr (INSFORGE_CLIENT_SECRET config));
                  ("code_verifier", codeVerifier) ])).

Definition profile_request (access_token : value) : request :=
  Request (INSFORGE_URL config ++ "/auth/v1/profile") "GET"
    [("Authorization", "Bearer " ++ toString access_token)] None.

Definition organizations_request (accessToken : value) : request :=
  Request (INSFORGE_URL config ++ "/organizations/v1") "GET"
    [("Authorization", "Bearer " ++ toString accessToken)] None.

(** [GET /auth/callback-popup] *)
Definition auth_callback_popup (query : gmap string value) : M unit :=
  let code := field query "code" in
  let state := field query "state" in
  oauthState ← session_get "oauthState";
  when (truthy state && negb (strict_eq state oauthState))
    (respond (Send 400 "Invalid state")) ;;
  codeVerifier ← session_get "codeVerifier";
  when (negb (truthy codeVerifier))
    (respond (Send 400 "Session expired")) ;;
  try_catch
    (tokenResponse ← fetch (token_request code codeVerifier);
     tokens ← json_of tokenResponse;
     tokens_error ← get tokens "error";
     when (truthy tokens_error)
       (respond (Send 400 ("Token error: " ++ toString tokens_error))) ;;
     access_token ← get tokens "access_token";
     session_set "accessToken" access_token ;;
     refresh_token ← get tokens "refresh_token";
     session_set "refreshToken" refresh_token ;;
     session_delete "oauthState" ;;
     session_delete "codeVerifier" ;;
     profileResponse ← fetch (profile_request access_token);
     when (fst profileResponse)
       (profile ← json_of profileResponse;
        user ← get profile "user";
        session_set "user" user) ;;
     respond (Redirect "/"))
    (respond (Send 500 "Token exchange failed")).

(** [sendError] of [/auth/callback]: [res.send] of the failure page. *)
Definition sendError {A} (message : string) : M A :=
  respond (Send 200 (authorization_failed message)).

(** [GET /auth/callback] *)
Definition auth_callback (query : gmap string value) : M unit :=
  let code := field query "code" in
  let state := field query "state" in
  let error := field query "error" in
  let error_description := field query "error_description" in
  when (truthy error)
    (sendError ("Error: " ++ toString error ++ ". "
                ++ toString (or_else error_description (VStr "")))) ;;
  isPopup ← optional_endsWith state ":popup";
  oauthState ← session_get "oauthState";
  when (negb (strict_eq state oauthState))
    (sendError "Invalid state parameter. Possible CSRF attack.") ;;
  codeVerifier ← session_get "codeVerifier";
  when (negb (truthy codeVerifier))
    (sendError "Missing code verifier. Session may have expired.") ;;
  try_catch
    (tokenResponse ← fetch (token_request code codeVerifier);
     tokens ← json_of tokenResponse;
     tokens_error ← get tokens "error";
     when (truthy tokens_error)
       (tokens_message ← get tokens "message";
        sendError ("Token exchange failed: " ++ toString tokens_error ++ ". "
                   ++ toString (or_else tokens_message (VStr "")))) ;;
     access_token ← get tokens "access_token";
     optional_substring access_token ;;
     refresh_token ← get tokens "refresh_token";
     optional_substring refresh_token ;;
     session_set "accessToken" access_token ;;
     session_set "refreshToken" refresh_token ;;
     session_delete "oauthState" ;;
     session_delete "codeVerifier" ;;
     profileResponse ← fetch (profile_request access_token);
     when (fst profileResponse)
       (profile ← json_of profileResponse;
        user ← get profile "user";
        session_set "user" user) ;;
     when (truthy isPopup) (respond (Send 200 popup_page)) ;;
     respond (Redirect "/"))
    (respond (Send 500 "Failed to exchange code for tokens")).

(** [GET /api/organizations] *)
Definition api_organizations : M unit :=
  accessToken ← session_get "accessToken";
  when (negb (truthy accessToken))
    (respond (Json 401 (VObj [("error", VStr "Not authenticated")]))) ;;
  try_catch
    (response ← fetch (organizations_request accessToken);
     data ← json_of response;
     respond (Json 200 data))
    (respond (Json 500 (VObj [("error", VStr "Failed to fetch organizations")]))).

(** The two routes that finish the flow. *)
Inductive callback_route : Type := Callback | CallbackPopup.

Definition callback (r : callback_route) : gmap string value -> M unit :=
  match r with
  | Callback => auth_callback
  | CallbackPopup => auth_callback_popup
  end.

(** One request: the handler runs on the session the store loaded, with
    no outbound call made yet. [None] as the response is a handler that
    threw outside any [try]. *)
Record outcome := Outcome {
  sent : option response;
  session_after : gmap string value;
  contacted : list request
}.

Definition handle (h : M unit) (sess : gmap string value) : outcome :=
  match h (State sess [] 0) with
  | (Return r, st) => Outcome (Some r) (session st) (calls st)
  | (_, st) => Outcome None (session st) (calls st)
  end.

End Handlers.

(** A stub network: one answer from the token endpoint of [config], and
    one from every other address. *)
Definition stub (config : Config) (token other : fetch_result)
  : request -> fetch_result :=
  fun r =>
    if String.eqb (url r) (INSFORGE_URL config ++ "/api/oauth/v1/token")
    then token else other.

(** Sixteen and thirty-two bytes of a counter, as sample entropy. *)
Definition counter (n : nat) : byte := default x00 (Byte.of_nat (n mod 256)).


(** The two routes that start the flow. *)
Inductive login_route : Type := Login | LoginPopup.

Definition login (config : Config) (entropy : nat -> byte) (r : login_route)
  : M unit :=
  match r with
  | Login => auth_login config entropy
  | LoginPopup => auth_login_popup config entropy
  end.

(** The state token the flow started on route [r] builds from its nonce. *)
Definition state_token (r : login_route) (nonce : list byte) : string :=
  match r with
  | Login => hex nonce
  | LoginPopup => hex nonce ++ ":popup"
  end.

(** Where a completed flow sends the browser. *)
Definition completion (r : callback_route) (state : value) : response :=
  match r, state with
  | Callback, VStr s =>
      if endsWith s ":popup" then Send 200 popup_page else Redirect "/"
  | _, _ => Redirect "/"
  end.

(** A program whose outbound calls only accumulate. *)
Definition grows {A} (m : M A) : Prop :=
  forall st, exists rest, calls (m st).2 = (calls st ++ rest)%list.

(** Sample requests, sessions and networks. *)
Definition sample_tokens : value :=
  VObj [("access_token", VStr "T1"); ("refresh_token", VStr "R1");
        ("expires_in", VNum 3600)].

Definition sample_profile : value :=
  VObj [("user", VObj [("id", VStr "u1"); ("email", VStr "a@b.com")])].

Definition sample_network : request -> fetch_result :=
  stub default_config (Response true (Some sample_tokens))
    (Response true (Some sample_profile)).

Definition profile_down_network : request -> fetch_result :=
  stub default_config (Response true (Some sample_tokens)) (Response false None).

Definition invalid_grant : list (string * value) :=
  [("error", VStr "invalid_grant"); ("message", VStr "Code expired")].

Definition invalid_grant_network : request -> fetch_result :=
  stub default_config (Response false (Some (VObj invalid_grant))) NetworkError.

Definition null_error : list (string * value) :=
  [("error", VNull); ("access_token", VStr "T1"); ("refresh_token", VStr "R1")].

Definition null_error_network : request -> fetch_result :=
  stub default_config (Response true (Some (VObj null_error))) (Response false None).

Definition empty_error : list (string * value) :=
  [("error", VStr ""); ("access_token", VStr "T1"); ("refresh_token", VStr "R1")].

Definition empty_error_network : request -> fetch_result :=
  stub default_config (Response true (Some (VObj empty_error))) (Response false None).

Definition pending_session : gmap string value :=
  <["oauthState" := VStr "a1b2c3"]> (<["codeVerifier" := VStr "v1"]> ∅).

Definition returning_session : gmap string value :=
  <["user" := VObj [("id", VStr "u0")]]> pending_session.

Definition logged_in_session : gmap string value :=
  <["accessToken" := VStr "T1"]> ∅.

Definition sample_query : gmap string value :=
  <["code" := VStr "ABC123"]> (<["state" := VStr "a1b2c3"]> ∅).

Definition stateless_query : gmap string value :=
  <["code" := VStr "ABC123"]> ∅.

Definition denied_query : gmap string value :=
  <["error" := VStr "access_denied"]> sample_query.

(** [req.session.destroy()]: the session leaves the store, and the next
    request of the browser starts from an empty one. *)
Definition session_destroy : M unit :=
  fun st => (Next tt, State ∅ (calls st) (drawn st)).

(** [GET /auth/logout] *)
Definition auth_logout : M unit :=
  session_destroy ;; respond (Redirect "/").

(** The pages of the first version of [/auth/callback]. *)
Definition provider_error_page (error error_description : value) : string :=
  "
      <h1>Authorization Failed</h1>
      <p>Error: "
  ++ toString error
  ++ "</p>
      <p>"
  ++ toString (or_else error_description (VStr ""))
  ++ "</p>
      <a href="
  ++ dquote
  ++ "/"
  ++ dquote
  ++ ">Go back</a>
    ".

Definition exchange_failed_page (tokens_error tokens_message : value) : string :=
  "
        <h1>Token Exchange Failed</h1>
        <p>Error: "
  ++ toString tokens_error
  ++ "</p>
        <p>"
  ++ toString (or_else tokens_message (VStr ""))
  ++ "</p>
        <a href="
  ++ dquote
  ++ "/"
  ++ dquote
  ++ ">Go back</a>
      ".

Section FirstVersion.

Variable config : Config.
Variable upstream : request -> fetch_result.

Definition profile_request_v1 (access_token : value) : request :=
  Request (INSFORGE_URL config ++ "/api/auth/v1/profile") "GET"
    [("Authorization", "Bearer " ++ toString access_token)] None.

Definition organizations_request_v1 (accessToken : value) : request :=
  Request (INSFORGE_URL config ++ "/api/organizations/v1") "GET"
    [("Authorization", "Bearer " ++ toString accessToken)] None.

(** [GET /auth/callback] of [src/server.js], the version before popup mode. *)
Definition auth_callback_v1 (query : gmap string value) : M unit :=
  let code := field query "code" in
  let state := field query "state" in
  let error := field query "error" in
  let error_description := field query "error_description" in
  when (truthy error)
    (respond (Send 200 (provider_error_page error error_description))) ;;
  oauthState ← session_get "oauthState";
  when (negb (strict_eq state oauthState))
    (respond (Send 400 "Invalid state parameter. Possible CSRF attack.")) ;;
  codeVerifier ← session_get "codeVerifier";
  when (negb (truthy codeVerifier))
    (respond (Send 400 "Missing code verifier. Session may have expired.")) ;;
  try_catch
    (tokenResponse ← fetch upstream (token_request config code codeVerifier);
     tokens ← json_of tokenResponse;
     tokens_error ← get tokens "error";
     when (truthy tokens_error)
       (tokens_message ← get tokens "message";
        respond (Send 200 (exchange_failed_page tokens_error tokens_message))) ;;
     access_token ← get tokens "access_token";
     optional_substring access_token ;;
     refresh_token ← get tokens "refresh_token";
     optional_substring refresh_token ;;
     session_set "accessToken" access_token ;;
     session_set "refreshToken" refresh_token ;;
     session_delete "oauthState" ;;
     session_delete "codeVerifier" ;;
     profileResponse ← fetch upstream (profile_request_v1 access_token);
     when (fst profileResponse)
       (profile ← json_of profileResponse;
        user ← get profile "user";
        session_set "user" user) ;;
     respond (Redirect "/"))
    (respond (Send 500 "Failed to exchange code for tokens")).

(** [GET /api/organizations] of [src/server.js]. *)
Definition api_organizations_v1 : M unit :=
  accessToken ← session_get "accessToken";
  when (negb (truthy accessToken))
    (respond (Json 401 (VObj [("error", VStr "Not authenticated")]))) ;;
  try_catch
    (response ← fetch upstream (organizations_request_v1 accessToken);
     data ← json_of response;
     respond (Json 200 data))
    (respond (Json 500 (VObj [("error", VStr "Failed to fetch organizations")]))).

End FirstVersion.

(** What the log line of [/auth/callback] prints of a token. *)
Definition token_prefix (v : value) : string :=
  match v with
  | VStr s => substring 0 20 s ++ "..."
  | _ => "undefined..."
  end.

(** What [state?.endsWith(suffix)] evaluates to, when it does. *)
Definition endsWith_value (v : value) (suffix : string) : value :=
  match v with
  | VStr s => VBool (endsWith s suffix)
  | _ => VUndef
  end.

(** The session properties the handlers of the flow write or delete. *)
Definition flow_keys : list string :=
  ["oauthState"; "codeVerifier"; "accessToken"; "refreshToken"; "user"].

(** The inverse of [hex]: the value of a digit, and two digits back to a
    byte. *)
Definition unhex (c : ascii) : N := index_of c hex_alphabet.

Fixpoint hex_decode (s : string) : list byte :=
  match s with
  | String hi (String lo rest) =>
      byte_of_N (N.lor (N.shiftl (unhex hi) 4) (unhex lo)) :: hex_decode rest
  | _ => []
  end.

Definition hex_byte_ok (b : byte) : bool :=
  let x := Byte.to_N b in
  Byte.eqb (byte_of_N (N.lor (N.shiftl (unhex (hexdigit (N.shiftr x 4))) 4)
                             (unhex (hexdigit (N.land x 15))))) b.

(** The characters the query-string serializer can write for a name or a
    value: the ones it leaves alone, [+] for a space and [%XX]. *)
Definition is_urlencoded (c : ascii) : bool :=
  is_unreserved c || in_alphabet "+%" c.

(** How often a character occurs in a string. *)
Fixpoint count (c : ascii) (s : string) : nat :=
  match s with
  | EmptyString => 0
  | String d rest => (if Ascii.eqb c d then 1 else 0) + count c rest
  end.

(** The answer of a route when the exchange throws. *)
Definition exchange_failure (r : callback_route) : response :=
  match r with
  | Callback => Send 500 "Failed to exchange code for tokens"
  | CallbackPopup => Send 500 "Token exchange failed"
  end.

(** The callback of a browser sent back by the authorization server, for a
    flow started on route [r]: the code issued, and the state echoed. *)
Definition echoed (entropy : nat -> byte) (r : login_route) (code : value)
  : gmap string value :=
  <["state" := VStr (state_token r (map entropy (seq 32 16)))]>
    (<["code" := code]> ∅).

(** More samples: a forged callback and networks that fail. *)
Definition mismatched_query : gmap string value :=
  <["code" := VStr "ABC123"]> (<["state" := VStr "ffffff"]> ∅).

Definition network_down : request -> fetch_result := fun _ => NetworkError.

Definition numeric_token : list (string * value) :=
  [("access_token", VNum 42); ("refresh_token", VStr "R1")].

Definition numeric_token_network : request -> fetch_result :=
  stub default_config (Response true (Some (VObj numeric_token)))
    (Response true (Some sample_profile)).

Definition profile_unreachable_network : request -> fetch_result :=
  stub default_config (Response true (Some sample_tokens)) NetworkError.

Definition repeated_state_query : gmap string value :=
  <["code" := VStr "ABC123"]>
    (<["state" := VArr [VStr "a1b2c3"; VStr "a1b2c3"]]> ∅).

(** No string occurs twice in the list. *)
Fixpoint distinct (l : list string) : bool :=
  match l with
  | [] => true
  | x :: rest => negb (existsb (String.eqb x) rest) && distinct rest
  end.

(** The verifiers of one character. *)
Definition one_character : list string :=
  map (fun b => String (ascii_of_byte b) "") all_bytes.

(** A profile endpoint that answers with a success status and no JSON. *)
Definition unparsable_profile_network : request -> fetch_result :=
  stub default_config (Response true (Some sample_tokens)) (Response true None).

End Server.

(* ===================================================================== *)
(** ** Facts about the encoders, the digest and strings                  *)
(* ===================================================================== *)

Module Facts.
Import Encoding SHA256 JS Server.


Lemma all_bytes_complete (b : byte) : In b all_bytes.
Proof.
  unfold all_bytes. apply in_map_iff. exists (Byte.to_nat b). split.
  - now rewrite Byte.of_to_nat.
  - apply in_seq. pose proof (Byte.to_nat_bounded b). lia.
Qed.

Lemma forall_byte (P : byte -> bool) :
  forallb P all_bytes = true -> forall b, P b = true.
Proof.
  intros H b. rewrite forallb_forall in H. apply H, all_bytes_complete.
Qed.

Lemma forall_byte2 (P : byte -> byte -> bool) :
  forallb (fun a => forallb (P a) all_bytes) all_bytes = true ->
  forall a b, P a b = true.
Proof.
  intros H a b. apply (forall_byte (P a)). apply (forall_byte _ H).
Qed.

Lemma pair_ok_all a b : pair_ok a b = true.
Proof. revert a b. apply forall_byte2. vm_compute. reflexivity. Qed.

Lemma single_ok_all a : single_ok a = true.
Proof. revert a. apply forall_byte. vm_compute. reflexivity. Qed.

Lemma byte_eqb_eq a b : Byte.eqb a b = true -> a = b.
Proof. apply Byte.byte_dec_bl. Qed.

Ltac booleans :=
  repeat match goal with
         | H : (_ && _)%bool = true |- _ => apply andb_prop in H; destruct H
         | H : Byte.eqb _ _ = true |- _ => apply byte_eqb_eq in H
         | H : N.eqb _ _ = true |- _ => apply N.eqb_eq in H
         end.

Lemma pair_facts (a b : byte) :
  let x := Byte.to_N a in
  let y := Byte.to_N b in
  let u2 := unsextet (sextet (i2 x y)) in
  let u3 := unsextet (sextet (i3 x y)) in
  byte_of_N (N.lor (N.shiftl (unsextet (sextet (N.shiftr x 2))) 2) (N.shiftr u2 4)) = a
  /\ N.land u2 15 = N.shiftr y 4
  /\ N.shiftr u3 2 = N.land x 15
  /\ N.land u3 3 = N.shiftr y 6
  /\ in_alphabet base64url_alphabet (sextet (i2 x y)) = true
  /\ in_alphabet base64url_alphabet (sextet (i3 x y)) = true.
Proof.
  pose proof (pair_ok_all a b) as H. unfold pair_ok in H.
  cbv zeta. booleans. repeat split; assumption.
Qed.

Lemma single_facts (a : byte) :
  let x := Byte.to_N a in
  byte_of_N (N.lor (N.shiftl (N.shiftr x 4) 4) (N.land x 15)) = a
  /\ byte_of_N (N.lor (N.shiftl (N.shiftr x 6) 6)
                      (unsextet (sextet (N.land x 63)))) = a
  /\ byte_of_N (N.lor (N.shiftl (unsextet (sextet (N.shiftr x 2))) 2)
                 (N.shiftr (unsextet (sextet (N.shiftl (N.land x 3) 4))) 4)) = a
  /\ N.shiftr (unsextet (sextet (N.shiftl (N.land x 15) 2))) 2 = N.land x 15
  /\ in_alphabet base64url_alphabet (sextet (N.shiftr x 2)) = true
  /\ in_alphabet base64url_alphabet (sextet (N.land x 63)) = true
  /\ in_alphabet base64url_alphabet (sextet (N.shiftl (N.land x 3) 4)) = true
  /\ in_alphabet base64url_alphabet (sextet (N.shiftl (N.land x 15) 2)) = true
  /\ in_alphabet hex_alphabet (hexdigit (N.shiftr x 4)) = true
  /\ in_alphabet hex_alphabet (hexdigit (N.land x 15)) = true.
Proof.
  pose proof (single_ok_all a) as H. unfold single_ok in H.
  cbv zeta. booleans. repeat split; assumption.
Qed.

Lemma list_ind3 {A} (P : list A -> Prop) :
  P [] -> (forall a, P [a]) -> (forall a b, P [a; b]) ->
  (forall a b c l, P l -> P (a :: b :: c :: l)) ->
  forall l, P l.
Proof.
  intros H0 H1 H2 H3.
  fix IH 1. intros [|a [|b [|c l]]]; [exact H0 | exact (H1 a) | exact (H2 a b) |].
  exact (H3 a b c l (IH l)).
Qed.

Lemma base64url_decode_encode (buf : list byte) :
  base64url_decode (base64url buf) = buf.
Proof.
  induction buf as [|a|a b|a b c l IH] using list_ind3.
  - reflexivity.
  - destruct (single_facts a) as (_ & _ & Ha & _).
    cbn [base64url base64url_decode]. now rewrite Ha.
  - destruct (pair_facts a b) as (Hab1 & Hab2 & _).
    destruct (single_facts b) as (Hb1 & _ & _ & Hb4 & _).
    cbn [base64url base64url_decode]. fold (i2 (Byte.to_N a) (Byte.to_N b)).
    now rewrite Hab1, Hab2, Hb4, Hb1.
  - destruct (pair_facts a b) as (Hab1 & Hab2 & _).
    destruct (pair_facts b c) as (_ & _ & Hbc3 & Hbc4 & _).
    destruct (single_facts b) as (Hb1 & _).
    destruct (single_facts c) as (_ & Hc2 & _).
    cbn [base64url base64url_decode].
    fold (i2 (Byte.to_N a) (Byte.to_N b)). fold (i3 (Byte.to_N b) (Byte.to_N c)).
    now rewrite IH, Hab1, Hab2, Hbc3, Hbc4, Hb1, Hc2.
Qed.

Lemma base64url_injective (b1 b2 : list byte) :
  base64url b1 = base64url b2 -> b1 = b2.
Proof.
  intros H. rewrite <- (base64url_decode_encode b1), <- (base64url_decode_encode b2).
  now rewrite H.
Qed.

Lemma append_cons c (s t : string) : String c s ++ t = String c (s ++ t).
Proof. reflexivity. Qed.

Lemma base64url_length (buf : list byte) :
  String.length (base64url buf) = (4 * length buf + 2) / 3.
Proof.
  induction buf as [|a|a b|a b c l IH] using list_ind3; try reflexivity.
  cbn [base64url String.length length]. rewrite IH.
  replace (4 * S (S (S (length l))) + 2) with (4 * length l + 2 + 4 * 3) by lia.
  rewrite Nat.div_add by lia. lia.
Qed.

Lemma base64url_chars (buf : list byte) :
  all_chars (in_alphabet base64url_alphabet) (base64url buf) = true.
Proof.
  induction buf as [|a|a b|a b c l IH] using list_ind3.
  - reflexivity.
  - destruct (single_facts a) as (_ & _ & _ & _ & H1 & _ & H3 & _).
    cbn [base64url all_chars]. now rewrite H1, H3.
  - destruct (single_facts a) as (_ & _ & _ & _ & H1 & _).
    destruct (single_facts b) as (_ & _ & _ & _ & _ & _ & _ & H4 & _).
    destruct (pair_facts a b) as (_ & _ & _ & _ & H5 & _).
    cbn [base64url all_chars]. fold (i2 (Byte.to_N a) (Byte.to_N b)).
    now rewrite H1, H4, H5.
  - destruct (single_facts a) as (_ & _ & _ & _ & H1 & _).
    destruct (single_facts c) as (_ & _ & _ & _ & _ & H2 & _).
    destruct (pair_facts a b) as (_ & _ & _ & _ & H5 & _).
    destruct (pair_facts b c) as (_ & _ & _ & _ & _ & H6).
    cbn [base64url all_chars].
    fold (i2 (Byte.to_N a) (Byte.to_N b)). fold (i3 (Byte.to_N b) (Byte.to_N c)).
    now rewrite H1, H2, H5, H6, IH.
Qed.

Lemma hex_chars (buf : list byte) :
  all_chars (in_alphabet hex_alphabet) (hex buf) = true.
Proof.
  induction buf as [|b rest IH]; [reflexivity|].
  destruct (single_facts b) as (_ & _ & _ & _ & _ & _ & _ & _ & H1 & H2).
  cbn [hex all_chars]. now rewrite H1, H2, IH.
Qed.

Lemma hex_length (buf : list byte) : String.length (hex buf) = 2 * length buf.
Proof. induction buf as [|b rest IH]; cbn [hex String.length length]; lia. Qed.

(** A character outside an alphabet occurs in no string over it. *)
Lemma occurs_outside tbl c s :
  in_alphabet tbl c = false -> all_chars (in_alphabet tbl) s = true ->
  occurs c s = false.
Proof.
  intros Hc. induction s as [|d s IH]; [reflexivity|].
  cbn [all_chars occurs]. intros H. apply andb_prop in H as [Hd Hs].
  rewrite (IH Hs), orb_false_r.
  destruct (Ascii.eqb_spec c d) as [->|]; [congruence | reflexivity].
Qed.

Lemma all_chars_weaken (p q : ascii -> bool) s :
  (forall c, p c = true -> q c = true) ->
  all_chars p s = true -> all_chars q s = true.
Proof.
  intros Hpq. induction s as [|c s IH]; [reflexivity|].
  cbn [all_chars]. intros H. apply andb_prop in H as [Hc Hs].
  now rewrite (Hpq _ Hc), (IH Hs).
Qed.

Lemma all_chars_app p s t :
  all_chars p (s ++ t) = all_chars p s && all_chars p t.
Proof.
  induction s as [|c s IH]; [reflexivity|].
  rewrite append_cons. cbn [all_chars]. now rewrite IH, andb_assoc.
Qed.

Lemma base64url_unreserved c :
  in_alphabet base64url_alphabet c = true -> is_unreserved c = true.
Proof. destruct c as [[] [] [] [] [] [] [] []]; vm_compute; congruence. Qed.

Lemma hex_unreserved c :
  in_alphabet hex_alphabet c = true -> is_unreserved c = true.
Proof. destruct c as [[] [] [] [] [] [] [] []]; vm_compute; congruence. Qed.

Lemma urlencode_app s t : urlencode (s ++ t) = urlencode s ++ urlencode t.
Proof.
  induction s as [|c s IH]; [reflexivity|].
  rewrite append_cons. cbn [urlencode]. rewrite IH.
  generalize (percent_encode c). intros p.
  induction p as [|d p IHp]; [reflexivity|]. rewrite !append_cons. now rewrite IHp.
Qed.

Lemma urlencode_unreserved s :
  all_chars is_unreserved s = true -> urlencode s = s.
Proof.
  induction s as [|c s IH]; [reflexivity|].
  cbn [all_chars urlencode]. intros H. apply andb_prop in H as [Hc Hs].
  unfold percent_encode. rewrite Hc, (IH Hs). reflexivity.
Qed.

Lemma sha256_length (msg : list byte) : length (sha256 msg) = 32.
Proof.
  unfold sha256. rewrite length_map.
  set (bs := pad _). generalize (length bs / 64). intros n.
  assert (H : forall h bs', length h = 8 -> length (blocks n h bs') = 8).
  { induction n as [|n IH]; intros h bs' Hh; cbn [blocks]; [exact Hh|].
    apply IH. reflexivity. }
  specialize (H H0 bs eq_refl).
  destruct (blocks n H0 bs) as [|h0 [|h1 [|h2 [|h3 [|h4 [|h5 [|h6 [|h7 [|]]]]]]]]];
    cbn [length] in H; try discriminate.
  reflexivity.
Qed.

Lemma length_append (s t : string) :
  String.length (s ++ t) = String.length s + String.length t.
Proof.
  induction s as [|c s IH]; [reflexivity|].
  rewrite append_cons. cbn [String.length]. lia.
Qed.

Lemma substring_all (t : string) : substring 0 (String.length t) t = t.
Proof. induction t as [|c t IH]; cbn [substring String.length]; congruence. Qed.

Lemma substring_skip (p t : string) :
  substring (String.length p) (String.length t) (p ++ t) = t.
Proof.
  induction p as [|c p IH].
  - apply substring_all.
  - rewrite append_cons. cbn [String.length substring]. exact IH.
Qed.

Lemma substring_split (n : nat) (s : string) :
  n <= String.length s ->
  s = substring 0 n s ++ substring n (String.length s - n) s.
Proof.
  revert n. induction s as [|c s IH]; intros [|n] H; cbn [String.length] in *.
  - reflexivity.
  - lia.
  - cbn [substring Nat.sub]. now rewrite substring_all.
  - cbn [substring Nat.sub]. rewrite append_cons. f_equal. apply IH. lia.
Qed.

Lemma endsWith_spec (s suffix : string) :
  endsWith s suffix = true <-> exists p, s = p ++ suffix.
Proof.
  unfold endsWith. split.
  - destruct (Nat.leb_spec (String.length suffix) (String.length s)) as [Hle|];
      [|discriminate].
    intros H. apply String.eqb_eq in H.
    set (k := String.length suffix) in *.
    exists (substring 0 (String.length s - k) s). rewrite <- H.
    pose proof (substring_split (String.length s - k) s) as E.
    replace (String.length s - (String.length s - k)) with k in E by lia.
    apply E. lia.
  - intros [p ->]. rewrite length_append.
    destruct (Nat.leb_spec (String.length suffix)
                (String.length p + String.length suffix)); [|lia].
    replace (String.length p + String.length suffix - String.length suffix)
      with (String.length p) by lia.
    rewrite substring_skip. apply String.eqb_refl.
Qed.

Lemma occurs_app c s t : occurs c (s ++ t) = occurs c s || occurs c t.
Proof.
  induction s as [|d s IH]; [reflexivity|].
  rewrite append_cons. cbn [occurs]. now rewrite IH, orb_assoc.
Qed.

End Facts.

(* ===================================================================== *)
(** ** Running a handler, one statement at a time                        *)
(* ===================================================================== *)

Import Encoding SHA256 JS Server Facts.


Section Execution.
Context {A B : Type}.
Variable k : A -> M B.
Variable st : state.

Lemma bind_ret (a : A) : bind (ret a) k st = k a st.
Proof. reflexivity. Qed.

Lemma bind_respond (r : response) : bind (respond r) k st = (Return r, st).
Proof. reflexivity. Qed.

Lemma bind_throw : bind throw k st = (Throw, st).
Proof. reflexivity. Qed.

Lemma bind_bind {C} (m : M C) (j : C -> M A) :
  bind (bind m j) k st = bind m (fun c => bind (j c) k) st.
Proof. unfold bind. now destruct (m st) as [[c|r|] st']. Qed.
End Execution.

Section ExecutionOps.
Context {B : Type}.
Variable st : state.

Lemma bind_session_get key (k : value -> M B) :
  bind (session_get key) k st = k (field (session st) key) st.
Proof. reflexivity. Qed.

Lemma bind_session_set key v (k : unit -> M B) :
  bind (session_set key v) k st
  = k tt (State (<[key := v]> (session st)) (calls st) (drawn st)).
Proof. reflexivity. Qed.

Lemma bind_session_delete key (k : unit -> M B) :
  bind (session_delete key) k st
  = k tt (State (delete key (session st)) (calls st) (drawn st)).
Proof. reflexivity. Qed.

Lemma bind_when_true m (k : unit -> M B) : bind (when true m) k st = bind m k st.
Proof. reflexivity. Qed.

Lemma bind_when_false m (k : unit -> M B) : bind (when false m) k st = k tt st.
Proof. reflexivity. Qed.

Lemma bind_fetch upstream r (k : bool * option value -> M B) :
  bind (fetch upstream r) k st
  = match upstream r with
    | NetworkError => (Throw, State (session st) (calls st ++ [r]) (drawn st))
    | Response ok json => k (ok, json) (State (session st) (calls st ++ [r]) (drawn st))
    end.
Proof. unfold bind, fetch. now destruct (upstream r). Qed.

Lemma bind_json_of resp (k : value -> M B) :
  bind (json_of resp) k st
  = match resp.2 with Some v => k v st | None => (Throw, st) end.
Proof. unfold bind, json_of. now destruct resp.2. Qed.

Lemma bind_get v key (k : value -> M B) :
  bind (get v key) k st
  = match prop v key with Some x => k x st | None => (Throw, st) end.
Proof. unfold bind, get. now destruct (prop v key). Qed.

Lemma bind_randomBytes entropy n (k : list byte -> M B) :
  bind (randomBytes entropy n) k st
  = k (map entropy (seq (drawn st) n)) (State (session st) (calls st) (drawn st + n)).
Proof. reflexivity. Qed.
End ExecutionOps.

Lemma bind_sendError {A B} message (k : A -> M B) st :
  bind (sendError message) k st
  = (Return (Send 200 (authorization_failed message)), st).
Proof. reflexivity. Qed.

(** The equation of the statement at the head of the program. *)
Ltac exec_head m :=
  lazymatch m with
  | ret _ => rewrite bind_ret
  | respond _ => rewrite bind_respond
  | sendError _ => rewrite bind_sendError
  | throw => rewrite bind_throw
  | session_get _ => rewrite bind_session_get
  | session_set _ _ => rewrite bind_session_set
  | session_delete _ => rewrite bind_session_delete
  | when true _ => rewrite bind_when_true
  | when false _ => rewrite bind_when_false
  | fetch _ _ => rewrite bind_fetch
  | json_of _ => rewrite bind_json_of
  | get _ _ => rewrite bind_get
  | randomBytes _ _ => rewrite bind_randomBytes
  | bind _ _ => rewrite bind_bind
  | optional_endsWith VUndef _ => unfold optional_endsWith at 1
  | optional_endsWith VNull _ => unfold optional_endsWith at 1
  | optional_endsWith (VStr _) _ => unfold optional_endsWith at 1
  | optional_endsWith (VBool _) _ => unfold optional_endsWith at 1
  | optional_endsWith (VNum _) _ => unfold optional_endsWith at 1
  | optional_endsWith (VArr _) _ => unfold optional_endsWith at 1
  | optional_endsWith (VObj _) _ => unfold optional_endsWith at 1
  | optional_substring VUndef => unfold optional_substring at 1
  | optional_substring VNull => unfold optional_substring at 1
  | optional_substring (VStr _) => unfold optional_substring at 1
  | optional_substring (VBool _) => unfold optional_substring at 1
  | optional_substring (VNum _) => unfold optional_substring at 1
  | optional_substring (VArr _) => unfold optional_substring at 1
  | optional_substring (VObj _) => unfold optional_substring at 1
  end.

Ltac exec_step :=
  first
    [ match goal with
      | |- context [bind ?m _ _] => exec_head m
      | |- context [@respond ?A ?r ?st] =>
          change (@respond A r st) with (@Return A r, st)
      end
    | match goal with
      | H : _ = true |- _ => rewrite H
      | H : _ = false |- _ => rewrite H
      | H : _ = Response _ _ |- _ => rewrite H
      | H : _ = NetworkError |- _ => rewrite H
      | H : _ = VStr _ |- _ => rewrite H
      | H : _ = Some _ |- _ => rewrite H
      | H : _ = None |- _ => rewrite H
      end
    | progress cbn [session calls drawn fst snd negb andb orb app prop] ].

(** Up to the [try] block, and through it. *)
Ltac exec_prelude := unfold mbind, M_bind; repeat exec_step.
Ltac exec := unfold mbind, M_bind, try_catch; repeat exec_step.

(** The same, taking every branch where the next test is not decided. *)
Ltac exec_cases :=
  exec;
  repeat (match goal with
          | |- context [bind (when ?b _) _ _] => destruct b eqn:?
          | |- context [bind (optional_endsWith ?v _) _ _] => destruct v eqn:?
          | |- context [bind (optional_substring ?v) _ _] => destruct v eqn:?
          | |- context [match ?up ?r with NetworkError => _ | Response _ _ => _ end] =>
              destruct (up r) as [|? [?|]] eqn:?
          | |- context [match prop ?v ?key with Some _ => _ | None => _ end] =>
              destruct (prop v key) eqn:?
          end; exec).

(** To run a handler once, whatever the number of times its outcome is
    mentioned: name the outcome, run, and read the result off. *)
Ltac name_outcome :=
  match goal with
  | |- context [handle ?h ?sess] =>
      let o := fresh "o" in
      let E := fresh "E" in
      remember (handle h sess) as o eqn:E; symmetry in E; revert E;
      unfold handle
  end.

Ltac read_outcome :=
  intros <-; cbn [sent session_after contacted].

Ltac lookups :=
  repeat first
    [ rewrite lookup_delete_eq | rewrite lookup_insert_eq
    | rewrite lookup_delete_ne by discriminate
    | rewrite lookup_insert_ne by discriminate ].

Ltac session_facts :=
  repeat split; intros; lookups; try congruence; try reflexivity.

(* ===================================================================== *)
(** ** The callback routes and the resource proxy                        *)
(* ===================================================================== *)

Section Callbacks.
Variable config : Config.
Variable upstream : request -> fetch_result.

Lemma optional_endsWith_defined v suffix :
  nullish_or_string v = true ->
  optional_endsWith v suffix
  = ret match v with VStr s => VBool (endsWith s suffix) | _ => VUndef end.
Proof. now destruct v. Qed.

Lemma auth_callback_provider_error query sess :
  truthy (field query "error") = true ->
  handle (auth_callback config upstream query) sess
  = Outcome (Some (Send 200 (authorization_failed
       ("Error: " ++ toString (field query "error") ++ ". "
        ++ toString (or_else (field query "error_description") (VStr ""))))))
      sess [].
Proof. intros H. unfold handle, auth_callback. exec. reflexivity. Qed.

Lemma auth_callback_throws query sess :
  truthy (field query "error") = false ->
  nullish_or_string (field query "state") = false ->
  handle (auth_callback config upstream query) sess = Outcome None sess [].
Proof.
  intros He Hn. unfold handle, auth_callback. exec.
  destruct (field query "state"); try discriminate; exec; reflexivity.
Qed.

Lemma auth_callback_guard query sess :
  strict_eq (field query "state") (field sess "oauthState") = false
  \/ truthy (field sess "codeVerifier") = false ->
  let out := handle (auth_callback config upstream query) sess in
  contacted out = [] /\ session_after out = sess
  /\ (nullish_or_string (field query "state") = true ->
      exists text, sent out = Some (Send 200 (authorization_failed text))).
Proof.
  intros H. unfold handle, auth_callback. exec.
  destruct (truthy (field query "error")); exec; [eauto|].
  destruct (field query "state") eqn:E; exec;
    try (repeat split; [discriminate]);
    destruct (strict_eq _ (field sess "oauthState")) eqn:Es; exec; eauto;
    destruct H as [H|H]; try discriminate; exec; eauto.
Qed.

Lemma auth_callback_popup_guard query sess :
  truthy (field query "state") = true
  /\ strict_eq (field query "state") (field sess "oauthState") = false
  \/ truthy (field sess "codeVerifier") = false ->
  let out := handle (auth_callback_popup config upstream query) sess in
  contacted out = [] /\ session_after out = sess
  /\ exists text, sent out = Some (Send 400 text).
Proof.
  intros H. unfold handle, auth_callback_popup. exec.
  destruct (truthy (field query "state")) eqn:Et;
    destruct (strict_eq _ (field sess "oauthState")) eqn:Es; exec; eauto;
    destruct H as [[? ?]|H]; try discriminate; exec; eauto.
Qed.

(** The token endpoint is asked only after the checks of the route. *)
Lemma auth_callback_attempted query sess :
  contacted (handle (auth_callback config upstream query) sess) <> [] ->
  truthy (field query "error") = false
  /\ nullish_or_string (field query "state") = true
  /\ strict_eq (field query "state") (field sess "oauthState") = true
  /\ truthy (field sess "codeVerifier") = true.
Proof.
  intros H.
  destruct (truthy (field query "error")) eqn:He.
  { rewrite auth_callback_provider_error in H by assumption. now destruct H. }
  destruct (strict_eq (field query "state") (field sess "oauthState")) eqn:Es.
  2:{ destruct (auth_callback_guard query sess (or_introl Es)) as [E _]. now destruct H. }
  destruct (truthy (field sess "codeVerifier")) eqn:Ev.
  2:{ destruct (auth_callback_guard query sess (or_intror Ev)) as [E _]. now destruct H. }
  destruct (nullish_or_string (field query "state")) eqn:En; [auto|].
  rewrite auth_callback_throws in H by assumption. now destruct H.
Qed.

Lemma auth_callback_popup_attempted query sess :
  contacted (handle (auth_callback_popup config upstream query) sess) <> [] ->
  truthy (field query "state")
    && negb (strict_eq (field query "state") (field sess "oauthState")) = false
  /\ truthy (field sess "codeVerifier") = true.
Proof.
  intros H.
  destruct (truthy (field sess "codeVerifier")) eqn:Ev.
  2:{ destruct (auth_callback_popup_guard query sess (or_intror Ev)) as [E _].
      now destruct H. }
  split; [|reflexivity].
  destruct (truthy (field query "state")) eqn:Et; [|reflexivity].
  destruct (strict_eq (field query "state") (field sess "oauthState")) eqn:Es;
    [reflexivity|].
  destruct (auth_callback_popup_guard query sess (or_introl (conj Et Es))) as [E _].
  now destruct H.
Qed.

(** A token response with a truthy [error] ends the request with the
    session as it was. *)
Lemma error_response_session r query sess ok props :
  upstream (token_request config (field query "code") (field sess "codeVerifier"))
    = Response ok (Some (VObj props)) ->
  truthy (assoc "error" props) = true ->
  session_after (handle (callback config upstream r query) sess) = sess.
Proof.
  intros Hup Herr. destruct r; unfold callback, handle.
  - unfold auth_callback. exec_cases; reflexivity.
  - unfold auth_callback_popup. exec_cases; reflexivity.
Qed.

(** C10, as amended: for every callback, on either route, to which the token
    endpoint answers with a body whose [error] field is truthy, the session
    after the request is the session before it: no token and no profile is
    written, and [oauthState] and [codeVerifier] stay in place. *)
Theorem failed_exchange_keeps_session r query sess ok props :
  upstream (token_request config (field query "code") (field sess "codeVerifier"))
    = Response ok (Some (VObj props)) ->
  truthy (assoc "error" props) = true ->
  session_after (handle (callback config upstream r query) sess) = sess.
Proof. apply error_response_session. Qed.

Lemma text_or_empty_spec v :
  nullish_or_string v = true ->
  toString (or_else v (VStr "")) = text_or_empty v.
Proof.
  destruct v as [| | | |s| |]; try discriminate; try reflexivity.
  intros _. unfold or_else. cbn [truthy]. now destruct s.
Qed.

(** C2, as amended: for every callback with a matching state and a present
    verifier, if the body of the token response has a truthy [error] field,
    the handler writes no access token and no refresh token into the session
    and asks the token endpoint once, with no retry and no profile fetch;
    and when that [error] is a string, and [message] a string or absent, it
    answers with that error: the failure page of [/auth/callback] with the
    error and the message, status 400 and [Token error: <error>] on
    [/auth/callback-popup]. *)
Theorem token_error_surfaced r query sess ok props :
  strict_eq (field query "state") (field sess "oauthState") = true ->
  truthy (field sess "codeVerifier") = true ->
  upstream (token_request config (field query "code") (field sess "codeVerifier"))
    = Response ok (Some (VObj props)) ->
  truthy (assoc "error" props) = true ->
  let out := handle (callback config upstream r query) sess in
  session_after out !! "accessToken" = sess !! "accessToken"
  /\ session_after out !! "refreshToken" = sess !! "refreshToken"
  /\ (contacted out <> [] ->
      contacted out
        = [token_request config (field query "code") (field sess "codeVerifier")]
      /\ forall error,
           assoc "error" props = VStr error ->
           nullish_or_string (assoc "message" props) = true ->
           sent out = Some
             match r with
             | Callback =>
                 Send 200 (authorization_failed
                   ("Token exchange failed: " ++ error ++ ". "
                    ++ text_or_empty (assoc "message" props)))
             | CallbackPopup => Send 400 ("Token error: " ++ error)
             end).
Proof.
  intros Hs Hv Hup Herr out. subst out.
  rewrite (error_response_session r query sess ok props Hup Herr).
  split; [reflexivity|]. split; [reflexivity|].
  destruct r; unfold callback; intros Hc.
  - apply auth_callback_attempted in Hc as (He & Hn & _ & _).
    name_outcome. unfold auth_callback.
    rewrite (optional_endsWith_defined _ _ Hn). exec. read_outcome.
    split; [reflexivity|]. intros error E Hm.
    rewrite (text_or_empty_spec _ Hm), E. reflexivity.
  - name_outcome. unfold auth_callback_popup. exec. rewrite andb_false_r. exec.
    read_outcome. split; [reflexivity|]. intros error E _. now rewrite E.
Qed.

Lemma grows_pure {A} (m : M A) :
  (forall st, calls (m st).2 = calls st) -> grows m.
Proof. intros H st. exists []. now rewrite H, app_nil_r. Qed.

Lemma grows_ret {A} (a : A) : grows (ret a).
Proof. now apply grows_pure. Qed.
Lemma grows_respond {A} r : grows (@respond A r).
Proof. now apply grows_pure. Qed.
Lemma grows_throw {A} : grows (@throw A).
Proof. now apply grows_pure. Qed.
Lemma grows_session_get key : grows (session_get key).
Proof. now apply grows_pure. Qed.
Lemma grows_session_set key v : grows (session_set key v).
Proof. now apply grows_pure. Qed.
Lemma grows_session_delete key : grows (session_delete key).
Proof. now apply grows_pure. Qed.
Lemma grows_fetch r : grows (fetch upstream r).
Proof. intros st. exists [r]. unfold fetch. now destruct (upstream r). Qed.

Lemma grows_bind {A B} (m : M A) (k : A -> M B) :
  grows m -> (forall a, grows (k a)) -> grows (bind m k).
Proof.
  intros Hm Hk st. unfold bind. destruct (Hm st) as [r1 E1].
  destruct (m st) as [[a|r|] st']; cbn [snd] in *; eauto.
  destruct (Hk a st') as [r2 E2]. exists (r1 ++ r2)%list.
  now rewrite E2, E1, app_assoc.
Qed.

Lemma grows_try_catch {A} (m h : M A) :
  grows m -> grows h -> grows (try_catch m h).
Proof.
  intros Hm Hh st. unfold try_catch. destruct (Hm st) as [r1 E1].
  destruct (m st) as [[a|r|] st']; cbn [snd] in *; eauto.
  destruct (Hh st') as [r2 E2]. exists (r1 ++ r2)%list.
  now rewrite E2, E1, app_assoc.
Qed.

Lemma grows_when b m : grows m -> grows (when b m).
Proof. destruct b; [auto | intros _; apply grows_ret]. Qed.
Lemma grows_get v key : grows (get v key).
Proof. unfold get. destruct (prop v key); [apply grows_ret | apply grows_throw]. Qed.
Lemma grows_json_of resp : grows (json_of resp).
Proof. unfold json_of. destruct resp.2; [apply grows_ret | apply grows_throw]. Qed.
Lemma grows_optional_substring v : grows (optional_substring v).
Proof. destruct v; first [apply grows_ret | apply grows_throw]. Qed.
Lemma grows_optional_endsWith v suffix : grows (optional_endsWith v suffix).
Proof. destruct v; first [apply grows_ret | apply grows_throw]. Qed.
Lemma grows_sendError {A} message : grows (@sendError A message).
Proof. apply grows_respond. Qed.

Ltac grows :=
  repeat first
    [ apply grows_bind | apply grows_try_catch | apply grows_when
    | apply grows_ret | apply grows_respond | apply grows_throw
    | apply grows_session_get | apply grows_session_set
    | apply grows_session_delete | apply grows_fetch | apply grows_get
    | apply grows_json_of | apply grows_optional_substring
    | apply grows_optional_endsWith | apply grows_sendError | intro ].

(** Once a [try] block has issued a call, the call stays first among those
    of the block, whatever follows and whether or not it throws. *)
Lemma fetch_first {B} r (k : bool * option value -> M B) (h : M B) st :
  (forall a, grows (k a)) -> grows h ->
  exists rest,
    calls (try_catch (bind (fetch upstream r) k) h st).2
    = (calls st ++ r :: rest)%list.
Proof.
  intros Hk Hh. unfold try_catch, bind, fetch.
  destruct (upstream r) as [|ok json].
  - destruct (Hh (State (session st) (calls st ++ [r]) (drawn st))) as [rest E].
    exists rest. rewrite E. cbn [calls]. now rewrite <- app_assoc.
  - destruct (Hk (ok, json) (State (session st) (calls st ++ [r]) (drawn st)))
      as [r1 E1].
    cbn [calls] in E1.
    destruct (k (ok, json) _) as [[a|resp|] st']; cbn [snd] in *;
      try (exists r1; rewrite E1; now rewrite <- app_assoc).
    destruct (Hh st') as [r2 E2]. exists (r1 ++ r2)%list.
    rewrite E2, E1. now rewrite <- !app_assoc.
Qed.

Lemma handle_contacted (h : M unit) sess :
  contacted (handle h sess) = calls (h (State sess [] 0)).2.
Proof. unfold handle. now destruct (h _) as [[]]. Qed.

(** C1: on [/auth/callback-popup] a request with no [state] (or an empty one)
    passes the state check whatever the session stored, and with a verifier
    in the session the token endpoint is contacted: the first outbound call
    is the token request. *)
Theorem callback_popup_absent_state query sess :
  truthy (field query "state") = false ->
  truthy (field sess "codeVerifier") = true ->
  exists rest,
    contacted (handle (auth_callback_popup config upstream query) sess)
    = token_request config (field query "code") (field sess "codeVerifier") :: rest.
Proof.
  intros Hs Hv. rewrite handle_contacted. unfold auth_callback_popup.
  exec_prelude.
  apply (fetch_first _ _ _ (State sess [] 0)); grows.
Qed.

(** C3: [/auth/callback-popup] does not look at the [error] parameter; a
    request carrying one, with a matching state and a verifier in the
    session, goes on to the token exchange. *)
Theorem callback_popup_error_param query sess :
  truthy (field query "error") = true ->
  strict_eq (field query "state") (field sess "oauthState") = true ->
  truthy (field sess "codeVerifier") = true ->
  exists rest,
    contacted (handle (auth_callback_popup config upstream query) sess)
    = token_request config (field query "code") (field sess "codeVerifier") :: rest.
Proof.
  intros He Hs Hv. rewrite handle_contacted. unfold auth_callback_popup.
  exec_prelude. rewrite andb_false_r. exec_prelude.
  apply (fetch_first _ _ _ (State sess [] 0)); grows.
Qed.

(** The popup route reads [code] and [state] and nothing else of the query. *)
Lemma auth_callback_popup_reads query query' :
  field query "code" = field query' "code" ->
  field query "state" = field query' "state" ->
  auth_callback_popup config upstream query
  = auth_callback_popup config upstream query'.
Proof. intros Hc Hs. unfold auth_callback_popup. now rewrite Hc, Hs. Qed.

Lemma field_insert_ne (o : gmap string value) key key' v :
  key <> key' -> field (<[key := v]> o) key' = field o key'.
Proof. intros H. unfold field. now rewrite lookup_insert_ne. Qed.

Lemma auth_callback_popup_ignores_error query e :
  auth_callback_popup config upstream (<["error" := e]> query)
  = auth_callback_popup config upstream query.
Proof. apply auth_callback_popup_reads; now apply field_insert_ne. Qed.

Ltac settle :=
  read_outcome; repeat split; intros; lookups; try reflexivity; try congruence;
  repeat match goal with H : _ \/ _ |- _ => destruct H end;
  try congruence;
  try match goal with
      | H : Response _ (Some ?v) = Response _ (Some _), E : prop ?v _ = Some _
        |- _ => injection H as ->; discriminate E
      end.

(** C4, as amended: for every callback that reached the token endpoint and
    got a body with no truthy [error] and string tokens, the session
    afterwards has no [oauthState] and no [codeVerifier] and holds the access
    and the refresh token of the response, whatever the profile endpoint
    does; exactly the token and the profile request were made. When the
    profile endpoint answers with a success status and a JSON body other
    than null, [user] is the [user] property of that body (undefined when it
    has none); when the body of a success status is not JSON, or is null,
    [user] is what it was and the route answers its 500 text. *)
Theorem successful_exchange_session r query sess ok props access refresh :
  contacted (handle (callback config upstream r query) sess) <> [] ->
  upstream (token_request config (field query "code") (field sess "codeVerifier"))
    = Response ok (Some (VObj props)) ->
  truthy (assoc "error" props) = false ->
  assoc "access_token" props = VStr access ->
  assoc "refresh_token" props = VStr refresh ->
  let out := handle (callback config upstream r query) sess in
  let answer := upstream (profile_request config (VStr access)) in
  session_after out !! "oauthState" = None
  /\ session_after out !! "codeVerifier" = None
  /\ session_after out !! "accessToken" = Some (VStr access)
  /\ session_after out !! "refreshToken" = Some (VStr refresh)
  /\ contacted out
     = [token_request config (field query "code") (field sess "codeVerifier");
        profile_request config (VStr access)]
  /\ (forall profile user,
        answer = Response true (Some profile) ->
        prop profile "user" = Some user ->
        session_after out !! "user" = Some user)
  /\ (answer = Response true None \/ answer = Response true (Some VNull) ->
      session_after out !! "user" = sess !! "user"
      /\ sent out = Some (exchange_failure r)).
Proof.
  intros Hc Hup Herr Ha Hr out answer. subst out answer.
  destruct r; unfold callback in *.
  - apply auth_callback_attempted in Hc as (He & Hn & Hs & Hv).
    unfold exchange_failure. name_outcome. unfold auth_callback.
    rewrite (optional_endsWith_defined _ _ Hn).
    exec_cases; settle.
  - apply auth_callback_popup_attempted in Hc as (Hs & Hv).
    unfold exchange_failure. name_outcome. unfold auth_callback_popup.
    exec_cases; settle.
Qed.

(** C7, as amended: for every callback whose token exchange succeeded, a
    profile fetch answered with a non-success status does not fail the flow:
    the response is the completion of the route (the popup page or the
    redirect to [/]), the tokens are in the session, and no profile is
    written: [user] is what it was before the request. *)
Theorem profile_failure_absorbed r query sess ok props access refresh body :
  contacted (handle (callback config upstream r query) sess) <> [] ->
  upstream (token_request config (field query "code") (field sess "codeVerifier"))
    = Response ok (Some (VObj props)) ->
  truthy (assoc "error" props) = false ->
  assoc "access_token" props = VStr access ->
  assoc "refresh_token" props = VStr refresh ->
  upstream (profile_request config (VStr access)) = Response false body ->
  let out := handle (callback config upstream r query) sess in
  sent out = Some (completion r (field query "state"))
  /\ session_after out !! "accessToken" = Some (VStr access)
  /\ session_after out !! "refreshToken" = Some (VStr refresh)
  /\ session_after out !! "user" = sess !! "user".
Proof.
  intros Hc Hup Herr Ha Hr Hp out. subst out. destruct r; unfold callback in *.
  - apply auth_callback_attempted in Hc as (He & Hn & Hs & Hv).
    unfold completion. name_outcome. unfold auth_callback.
    rewrite (optional_endsWith_defined _ _ Hn). exec.
    destruct (field query "state") as [| | | |s| |]; try discriminate Hn;
      cbn [truthy]; try destruct (endsWith s ":popup");
      exec; read_outcome; session_facts.
  - apply auth_callback_popup_attempted in Hc as (Hs & Hv).
    unfold completion. name_outcome. unfold auth_callback_popup.
    exec. read_outcome. session_facts.
Qed.

(** C9: [/api/organizations] with no (truthy) access token in the session
    answers 401 [Not authenticated] and makes no outbound call; with a token
    (a non-empty string) it makes one call, to the organizations endpoint,
    whose [Authorization] header is [Bearer ] followed by that token, and
    passes the JSON body of the answer through. *)
Theorem organizations_requires_token sess :
  let out := handle (api_organizations config upstream) sess in
  (truthy (field sess "accessToken") = false ->
   sent out = Some (Json 401 (VObj [("error", VStr "Not authenticated")]))
   /\ contacted out = [])
  /\ (forall token,
        field sess "accessToken" = VStr token -> token <> "" ->
        let call := Request (INSFORGE_URL config ++ "/organizations/v1") "GET"
                      [("Authorization", "Bearer " ++ token)] None in
        contacted out = [call]
        /\ forall ok data,
             upstream call = Response ok (Some data) ->
             sent out = Some (Json 200 data)).
Proof.
  intros out. subst out. split.
  - intros H. name_outcome. unfold api_organizations. exec. read_outcome.
    split; reflexivity.
  - intros token Ht Hne call. subst call.
    assert (Htr : truthy (field sess "accessToken") = true).
    { rewrite Ht. cbn [truthy]. now destruct token. }
    name_outcome. unfold api_organizations. exec.
    unfold organizations_request. cbn [toString].
    destruct (upstream _) as [|ok [data|]] eqn:E; exec; read_outcome;
      (split; [reflexivity|]); intros ok' data' E'; congruence.
Qed.
End Callbacks.

(* ===================================================================== *)
(** ** Starting the flow                                                 *)
(* ===================================================================== *)

Section Login.
Variable config : Config.
Variable entropy : nat -> byte.

Lemma authorize_url_params state codeChallenge :
  searchParams (authorize_url config state codeChallenge)
  = [ ("client_id", INSFORGE_CLIENT_ID config);
      ("redirect_uri", CALLBACK_URL config);
      ("response_type", "code");
      ("scope", SCOPES config);
      ("state", state);
      ("code_challenge", codeChallenge);
      ("code_challenge_method", "S256") ].
Proof. reflexivity. Qed.

Lemma authorize_url_string state codeChallenge :
  URL_toString (authorize_url config state codeChallenge)
  = (INSFORGE_URL config ++ "/api/oauth/v1/authorize")
    ++ "?client_id=" ++ urlencode (INSFORGE_CLIENT_ID config)
    ++ "&redirect_uri=" ++ urlencode (CALLBACK_URL config)
    ++ "&response_type=code"
    ++ "&scope=" ++ urlencode (SCOPES config)
    ++ "&state=" ++ urlencode state
    ++ "&code_challenge=" ++ urlencode codeChallenge
    ++ "&code_challenge_method=S256".
Proof.
  unfold URL_toString. rewrite authorize_url_params.
  cbn [serialize]. reflexivity.
Qed.

Lemma urlencode_challenge verifier :
  urlencode (generateCodeChallenge verifier) = generateCodeChallenge verifier.
Proof.
  apply urlencode_unreserved.
  apply (all_chars_weaken _ _ _ base64url_unreserved), base64url_chars.
Qed.

Lemma login_outcome r sess :
  let verifier := base64url (map entropy (seq 0 32)) in
  let state := state_token r (map entropy (seq 32 16)) in
  handle (login config entropy r) sess
  = Outcome
      (Some (Redirect (URL_toString
         (authorize_url config state (generateCodeChallenge verifier)))))
      (<["codeVerifier" := VStr verifier]> (<["oauthState" := VStr state]> sess))
      [].
Proof.
  destruct r; unfold login, handle, auth_login, auth_login_popup,
    generateCodeVerifier, generateState, state_token; exec; reflexivity.
Qed.

(** C5: for a [config.INSFORGE_URL] that is a plain origin, on both login
    routes the response is a redirect to the authorization endpoint whose
    query string carries the configured [client_id], [redirect_uri] and
    [scope], [response_type=code], the state stored in the session,
    [code_challenge_method=S256] and a [code_challenge] equal to
    [generateCodeChallenge] of the verifier stored in the session. *)
Theorem login_redirect r sess :
  plain_origin (INSFORGE_URL config) = true ->
  let out := handle (login config entropy r) sess in
  exists verifier state,
    session_after out !! "codeVerifier" = Some (VStr verifier)
    /\ session_after out !! "oauthState" = Some (VStr state)
    /\ sent out = Some (Redirect
         ((INSFORGE_URL config ++ "/api/oauth/v1/authorize")
          ++ "?client_id=" ++ urlencode (INSFORGE_CLIENT_ID config)
          ++ "&redirect_uri=" ++ urlencode (CALLBACK_URL config)
          ++ "&response_type=code"
          ++ "&scope=" ++ urlencode (SCOPES config)
          ++ "&state=" ++ urlencode state
          ++ "&code_challenge=" ++ generateCodeChallenge verifier
          ++ "&code_challenge_method=S256")).
Proof.
  intros _ out. subst out. rewrite login_outcome. cbn [sent session_after].
  exists (base64url (map entropy (seq 0 32))),
    (state_token r (map entropy (seq 32 16))).
  split; [|split].
  - apply lookup_insert_eq.
  - rewrite lookup_insert_ne by discriminate. apply lookup_insert_eq.
  - now rewrite authorize_url_string, urlencode_challenge.
Qed.

Lemma hex_no_colon (buf : list byte) : occurs ":" (hex buf) = false.
Proof. apply (occurs_outside hex_alphabet); [reflexivity | apply hex_chars]. Qed.

Lemma endsWith_popup_suffix (nonce : string) : endsWith (nonce ++ ":popup") ":popup" = true.
Proof. apply endsWith_spec. now exists nonce. Qed.

Lemma endsWith_hex_popup (buf : list byte) : endsWith (hex buf) ":popup" = false.
Proof.
  destruct (endsWith (hex buf) ":popup") eqn:E; [|reflexivity].
  apply endsWith_spec in E as [p E].
  pose proof (hex_no_colon buf) as H. rewrite E, occurs_app in H.
  apply orb_false_elim in H as [_ H]. discriminate H.
Qed.
End Login.

Lemma distinct_injective {A} (f : A -> string) (l : list A) :
  distinct (map f l) = true ->
  forall x y, In x l -> In y l -> f x = f y -> x = y.
Proof.
  induction l as [|a l IH]; cbn [map distinct]; [intros _ x y []|].
  intros H. apply andb_prop in H as [Ha Hl].
  assert (Hout : forall z, In z l -> f a <> f z).
  { intros z Hz E. apply negb_true_iff in Ha.
    assert (Hex : existsb (String.eqb (f a)) (map f l) = true).
    { apply existsb_exists. exists (f z). split; [now apply in_map|].
      now apply String.eqb_eq. }
    congruence. }
  intros x y [->|Hx] [->|Hy] E; try reflexivity.
  - now destruct (Hout y Hy).
  - now destruct (Hout x Hx).
  - now apply IH.
Qed.

Lemma one_character_complete (a : ascii) : In (String a "") one_character.
Proof.
  unfold one_character. apply in_map_iff. exists (byte_of_ascii a).
  split; [now rewrite ascii_of_byte_of_ascii | apply all_bytes_complete].
Qed.

Lemma one_character_challenges :
  distinct (map generateCodeChallenge one_character) = true.
Proof. vm_compute. reflexivity. Qed.

(** C8: the challenge is the base64url encoding, without padding, of the
    SHA-256 digest of the verifier: 43 characters of the URL-safe alphabet,
    the value RFC 7636 gives for its sample verifier and the published
    digests of three more messages. Two verifiers give the same challenge
    exactly when their SHA-256 digests are equal (the encoding loses
    nothing), and no two verifiers of one character do. *)
Theorem challenge_deterministic :
  (forall verifier,
     String.length (generateCodeChallenge verifier) = 43
     /\ all_chars (in_alphabet base64url_alphabet) (generateCodeChallenge verifier)
        = true
     /\ occurs "=" (generateCodeChallenge verifier) = false)
  /\ (forall verifier verifier',
        generateCodeChallenge verifier = generateCodeChallenge verifier' <->
        sha256 (list_byte_of_string verifier)
        = sha256 (list_byte_of_string verifier'))
  /\ generateCodeChallenge "dBjftJeZ4CVP-mB92K27uhbUJU1p1r_wW1gFWFOEjXk"
     = "E9Melhoa2OwvFrEMTJguCHaoeK1t8URWbuGJSstw-cM"
  /\ generateCodeChallenge "" = "47DEQpj8HBSa-_TImW-5JCeuQeRkm5NMpJWZG3hSuFU"
  /\ generateCodeChallenge "abc" = "ungWv48Bz-pBQUDeXa4iI7ADYaOWF3qctBD_YfIAFa0"
  /\ generateCodeChallenge
       "abcdbcdecdefdefgefghfghighijhijkijkljklmklmnlmnomnopnopq"
     = "JI1qYdIGOLjlwCaTDD5gOaM85Flk_yFn9uzt1BnbBsE"
  /\ (forall a b : ascii,
        generateCodeChallenge (String a "") = generateCodeChallenge (String b "") ->
        a = b).
Proof.
  split; [|split; [|split; [|split; [|split; [|split]]]]].
  - intros verifier. unfold generateCodeChallenge. split; [|split].
    + now rewrite base64url_length, sha256_length.
    + apply base64url_chars.
    + apply (occurs_outside base64url_alphabet); [reflexivity | apply base64url_chars].
  - intros verifier verifier'. unfold generateCodeChallenge. split.
    + apply base64url_injective.
    + now intros ->.
  - vm_compute. reflexivity.
  - vm_compute. reflexivity.
  - vm_compute. reflexivity.
  - vm_compute. reflexivity.
  - intros a b E.
    assert (H : String a "" = String b "").
    { apply (distinct_injective generateCodeChallenge one_character
               one_character_challenges);
        [apply one_character_complete | apply one_character_complete | exact E]. }
    now injection H.
Qed.

(* ===================================================================== *)
(** ** The digest against published vectors, and the theorems at work    *)
(* ===================================================================== *)

Example sha256_abc :
  Encoding.hex (SHA256.sha256 (list_byte_of_string "abc"))
  = "ba7816bf8f01cfea414140de5dae2223b00361a396177a9cb410ff61f20015ad".
Proof. vm_compute. reflexivity. Qed.

Example sha256_empty :
  Encoding.hex (SHA256.sha256 [])
  = "e3b0c44298fc1c149afbf4c8996fb92427ae41e4649b934ca495991b7852b855".
Proof. vm_compute. reflexivity. Qed.

Example sha256_two_blocks :
  Encoding.hex (SHA256.sha256 (list_byte_of_string
     "abcdbcdecdefdefgefghfghighijhijkijkljklmklmnlmnomnopnopq"))
  = "248d6a61d20638b8e5c026930c3e6039a33ce45964ff2167f6ecedd419db06c1".
Proof. vm_compute. reflexivity. Qed.

Example rfc7636_appendix_b :
  Encoding.base64url (SHA256.sha256 (list_byte_of_string
     "dBjftJeZ4CVP-mB92K27uhbUJU1p1r_wW1gFWFOEjXk"))
  = "E9Melhoa2OwvFrEMTJguCHaoeK1t8URWbuGJSstw-cM".
Proof. vm_compute. reflexivity. Qed.

(** C1 at work: no [state] on the request, [a1b2c3] stored in the session,
    and the token endpoint is asked all the same. *)
Lemma callback_popup_absent_state_witness :
  truthy (field stateless_query "state") = false
  /\ truthy (field pending_session "codeVerifier") = true
  /\ strict_eq (field stateless_query "state") (field pending_session "oauthState")
     = false
  /\ exists rest,
       contacted (handle (auth_callback_popup default_config sample_network
                            stateless_query) pending_session)
       = token_request default_config (field stateless_query "code")
           (field pending_session "codeVerifier") :: rest.
Proof.
  split; [reflexivity|]. split; [reflexivity|]. split; [reflexivity|].
  apply (callback_popup_absent_state default_config sample_network
           stateless_query pending_session); reflexivity.
Defined.

(** C3 at work: the provider reported [access_denied], and the popup route
    exchanges the code. *)
Lemma callback_popup_error_param_witness :
  truthy (field denied_query "error") = true
  /\ strict_eq (field denied_query "state") (field pending_session "oauthState")
     = true
  /\ truthy (field pending_session "codeVerifier") = true
  /\ exists rest,
       contacted (handle (auth_callback_popup default_config sample_network
                            denied_query) pending_session)
       = token_request default_config (field denied_query "code")
           (field pending_session "codeVerifier") :: rest.
Proof.
  split; [reflexivity|]. split; [reflexivity|]. split; [reflexivity|].
  apply (callback_popup_error_param default_config sample_network
           denied_query pending_session); reflexivity.
Defined.

(** C2 as stated fails: the body below contains an [error] field (null), the
    state matches and the verifier is there, and [/auth/callback] stores the
    access token and redirects home. *)
Lemma null_error_field_stores_tokens :
  strict_eq (field sample_query "state") (field pending_session "oauthState") = true
  /\ truthy (field pending_session "codeVerifier") = true
  /\ null_error_network
       (token_request default_config (field sample_query "code")
          (field pending_session "codeVerifier"))
     = Response true (Some (VObj null_error))
  /\ In "error" (map fst null_error)
  /\ pending_session !! "accessToken" = None
  /\ session_after (handle (auth_callback default_config null_error_network
                              sample_query) pending_session) !! "accessToken"
     = Some (VStr "T1")
  /\ sent (handle (auth_callback default_config null_error_network
                     sample_query) pending_session)
     = Some (Redirect "/").
Proof.
  split; [reflexivity|]. split; [reflexivity|]. split; [reflexivity|].
  split; [left; reflexivity|]. split; [reflexivity|].
  split; vm_compute; reflexivity.
Qed.

(** C2 at work on both routes: [invalid_grant] is shown, and no token is
    stored. *)
Lemma token_error_surfaced_witness :
  strict_eq (field sample_query "state") (field pending_session "oauthState") = true
  /\ truthy (field pending_session "codeVerifier") = true
  /\ invalid_grant_network
       (token_request default_config (field sample_query "code")
          (field pending_session "codeVerifier"))
     = Response false (Some (VObj invalid_grant))
  /\ truthy (assoc "error" invalid_grant) = true
  /\ sent (handle (callback default_config invalid_grant_network Callback
                     sample_query) pending_session)
     = Some (Send 200 (authorization_failed
               "Token exchange failed: invalid_grant. Code expired"))
  /\ sent (handle (callback default_config invalid_grant_network CallbackPopup
                     sample_query) pending_session)
     = Some (Send 400 "Token error: invalid_grant")
  /\ session_after (handle (callback default_config invalid_grant_network
                              CallbackPopup sample_query) pending_session)
       !! "accessToken"
     = None.
Proof.
  split; [reflexivity|]. split; [reflexivity|]. split; [reflexivity|].
  split; [reflexivity|].
  assert (Hc : forall r,
            contacted (handle (callback default_config invalid_grant_network r
                                 sample_query) pending_session) <> [])
    by (intros []; vm_compute; discriminate).
  destruct (token_error_surfaced default_config invalid_grant_network Callback
              sample_query pending_session false invalid_grant
              eq_refl eq_refl eq_refl eq_refl) as (_ & _ & Hpage).
  destruct (token_error_surfaced default_config invalid_grant_network
              CallbackPopup sample_query pending_session false invalid_grant
              eq_refl eq_refl eq_refl eq_refl) as (Ha & _ & Htext).
  split; [exact (proj2 (Hpage (Hc Callback)) "invalid_grant" eq_refl eq_refl)|].
  split; [exact (proj2 (Htext (Hc CallbackPopup)) "invalid_grant" eq_refl eq_refl)|].
  exact Ha.
Defined.

(** C10 as stated fails: the body below contains an [error] field (the empty
    string), and [/auth/callback-popup] consumes the pending state. *)
Lemma empty_error_field_consumes_pending :
  empty_error_network
    (token_request default_config (field sample_query "code")
       (field pending_session "codeVerifier"))
  = Response true (Some (VObj empty_error))
  /\ In "error" (map fst empty_error)
  /\ pending_session !! "oauthState" = Some (VStr "a1b2c3")
  /\ session_after (handle (auth_callback_popup default_config empty_error_network
                              sample_query) pending_session) !! "oauthState"
     = None
  /\ session_after (handle (auth_callback_popup default_config empty_error_network
                              sample_query) pending_session)
     <> pending_session.
Proof.
  split; [reflexivity|]. split; [left; reflexivity|]. split; [reflexivity|].
  assert (H : session_after (handle (auth_callback_popup default_config
                empty_error_network sample_query) pending_session) !! "oauthState"
              = None) by (vm_compute; reflexivity).
  split; [exact H|]. intros E. rewrite E in H. discriminate H.
Qed.

Lemma failed_exchange_keeps_session_witness :
  invalid_grant_network
    (token_request default_config (field sample_query "code")
       (field pending_session "codeVerifier"))
  = Response false (Some (VObj invalid_grant))
  /\ truthy (assoc "error" invalid_grant) = true
  /\ session_after (handle (callback default_config invalid_grant_network
                              CallbackPopup sample_query) pending_session)
     = pending_session.
Proof.
  split; [reflexivity|]. split; [reflexivity|].
  apply (failed_exchange_keeps_session default_config invalid_grant_network
           CallbackPopup sample_query pending_session false invalid_grant);
    reflexivity.
Defined.

(** C4 as stated fails: the exchange succeeded and the profile endpoint
    answered with a success status, but with a body that is not JSON; the
    tokens are stored, no [user] is, and the route answers 500. *)
Lemma success_status_without_profile :
  contacted (handle (auth_callback default_config unparsable_profile_network
                       sample_query) pending_session)
  = [token_request default_config (VStr "ABC123") (VStr "v1");
     profile_request default_config (VStr "T1")]
  /\ unparsable_profile_network (profile_request default_config (VStr "T1"))
     = Response true None
  /\ session_after (handle (auth_callback default_config
                              unparsable_profile_network sample_query)
                      pending_session) !! "accessToken"
     = Some (VStr "T1")
  /\ session_after (handle (auth_callback default_config
                              unparsable_profile_network sample_query)
                      pending_session) !! "user"
     = None
  /\ sent (handle (auth_callback default_config unparsable_profile_network
                     sample_query) pending_session)
     = Some (Send 500 "Failed to exchange code for tokens").
Proof.
  split; [vm_compute; reflexivity|]. split; [reflexivity|].
  split; [vm_compute; reflexivity|]. split; vm_compute; reflexivity.
Qed.

(** C4 at work: a profile stored on [/auth/callback], and a success status
    without a body on [/auth/callback-popup]. *)
Lemma successful_exchange_session_witness :
  (forall r, contacted (handle (callback default_config sample_network r
                                  sample_query) pending_session) <> [])
  /\ session_after (handle (callback default_config sample_network Callback
                              sample_query) pending_session) !! "codeVerifier"
     = None
  /\ session_after (handle (callback default_config sample_network Callback
                              sample_query) pending_session) !! "accessToken"
     = Some (VStr "T1")
  /\ session_after (handle (callback default_config sample_network Callback
                              sample_query) pending_session) !! "user"
     = Some (VObj [("id", VStr "u1"); ("email", VStr "a@b.com")])
  /\ session_after (handle (callback default_config unparsable_profile_network
                              CallbackPopup sample_query) pending_session)
       !! "refreshToken"
     = Some (VStr "R1")
  /\ sent (handle (callback default_config unparsable_profile_network
                     CallbackPopup sample_query) pending_session)
     = Some (Send 500 "Token exchange failed").
Proof.
  assert (Hc : forall r,
            contacted (handle (callback default_config sample_network r
                                 sample_query) pending_session) <> [])
    by (intros []; vm_compute; discriminate).
  assert (Hc' : contacted (handle (callback default_config
                  unparsable_profile_network CallbackPopup sample_query)
                  pending_session) <> [])
    by (vm_compute; discriminate).
  split; [exact Hc|].
  destruct (successful_exchange_session default_config sample_network Callback
              sample_query pending_session true
              [("access_token", VStr "T1"); ("refresh_token", VStr "R1");
               ("expires_in", VNum 3600)] "T1" "R1" (Hc Callback)
              eq_refl eq_refl eq_refl eq_refl)
    as (_ & Hv & Ha & _ & _ & Hu & _).
  destruct (successful_exchange_session default_config
              unparsable_profile_network CallbackPopup
              sample_query pending_session true
              [("access_token", VStr "T1"); ("refresh_token", VStr "R1");
               ("expires_in", VNum 3600)] "T1" "R1" Hc'
              eq_refl eq_refl eq_refl eq_refl)
    as (_ & _ & _ & Hr & _ & _ & Hf).
  split; [exact Hv|]. split; [exact Ha|].
  split; [exact (Hu sample_profile _ eq_refl eq_refl)|].
  split; [exact Hr|].
  exact (proj2 (Hf (or_introl eq_refl))).
Defined.

(** C7 as stated fails: a session that still holds the profile of an earlier
    login keeps it when the profile fetch of the new login fails, beside the
    new tokens. *)
Lemma stale_profile_survives :
  contacted (handle (auth_callback default_config profile_down_network
                       sample_query) returning_session)
  = [token_request default_config (VStr "ABC123") (VStr "v1");
     profile_request default_config (VStr "T1")]
  /\ profile_down_network (profile_request default_config (VStr "T1"))
     = Response false None
  /\ sent (handle (auth_callback default_config profile_down_network
                     sample_query) returning_session)
     = Some (Redirect "/")
  /\ session_after (handle (auth_callback default_config profile_down_network
                              sample_query) returning_session) !! "accessToken"
     = Some (VStr "T1")
  /\ session_after (handle (auth_callback default_config profile_down_network
                              sample_query) returning_session) !! "user"
     = Some (VObj [("id", VStr "u0")]).
Proof. repeat split; vm_compute; reflexivity. Qed.

Lemma profile_failure_absorbed_witness :
  contacted (handle (callback default_config profile_down_network Callback
                       sample_query) pending_session) <> []
  /\ profile_down_network (profile_request default_config (VStr "T1"))
     = Response false None
  /\ sent (handle (callback default_config profile_down_network Callback
                     sample_query) pending_session)
     = Some (Redirect "/")
  /\ session_after (handle (callback default_config profile_down_network Callback
                              sample_query) pending_session) !! "user"
     = None.
Proof.
  assert (Hc : contacted (handle (callback default_config profile_down_network
                 Callback sample_query) pending_session) <> [])
    by (vm_compute; discriminate).
  split; [exact Hc|]. split; [reflexivity|].
  destruct (profile_failure_absorbed default_config profile_down_network Callback
              sample_query pending_session true
              [("access_token", VStr "T1"); ("refresh_token", VStr "R1");
               ("expires_in", VNum 3600)] "T1" "R1" None Hc
              eq_refl eq_refl eq_refl eq_refl eq_refl)
    as (Hs & _ & _ & Hu).
  split; [exact Hs | exact Hu].
Defined.

(** C9 at work: 401 without a token, and the token of the session in the
    [Authorization] header of the one call made. *)
Lemma organizations_requires_token_witness :
  truthy (field pending_session "accessToken") = false
  /\ sent (handle (api_organizations default_config sample_network)
             pending_session)
     = Some (Json 401 (VObj [("error", VStr "Not authenticated")]))
  /\ contacted (handle (api_organizations default_config sample_network)
                  pending_session) = []
  /\ field logged_in_session "accessToken" = VStr "T1"
  /\ contacted (handle (api_organizations default_config sample_network)
                  logged_in_session)
     = [Request "http://localhost:3000/organizations/v1" "GET"
          [("Authorization", "Bearer T1")] None]
  /\ sent (handle (api_organizations default_config sample_network)
             logged_in_session)
     = Some (Json 200 sample_profile).
Proof.
  split; [reflexivity|].
  destruct (organizations_requires_token default_config sample_network
              pending_session) as [H401 _].
  destruct (H401 eq_refl) as [Hs Hc].
  split; [exact Hs|]. split; [exact Hc|]. split; [reflexivity|].
  destruct (organizations_requires_token default_config sample_network
              logged_in_session) as [_ H200].
  assert (Hne : "T1" <> "") by discriminate.
  destruct (H200 "T1" eq_refl Hne) as [Hcall Hd].
  split; [exact Hcall|].
  exact (Hd true sample_profile eq_refl).
Defined.

(** C5 at work on the popup route, with the default configuration and a
    counter for random bytes. *)
Lemma login_redirect_witness :
  plain_origin (INSFORGE_URL default_config) = true
  /\ sent (handle (login default_config counter LoginPopup) ∅)
     = Some (Redirect "http://localhost:3000/api/oauth/v1/authorize?client_id=your_client_id&redirect_uri=http%3A%2F%2Flocalhost%3A4000%2Fauth%2Fcallback&response_type=code&scope=user%3Aread+organizations%3Aread+projects%3Aread+projects%3Awrite&state=202122232425262728292a2b2c2d2e2f%3Apopup&code_challenge=6oZqdX5MOLq_qBJ8vppAnT4fk6AP8UiP9zX8-Rev_9A&code_challenge_method=S256").
Proof.
  split; [reflexivity|].
  destruct (login_redirect default_config counter LoginPopup ∅ eq_refl)
    as (verifier & state & Hv & Hs & Hsent).
  vm_compute in Hv, Hs. injection Hv as <-. injection Hs as <-.
  rewrite Hsent. vm_compute. reflexivity.
Defined.

(* ===================================================================== *)
(** * Beyond the claims: the remaining paths of the handlers             *)
(* ===================================================================== *)

(** *** Every path of a handler *)

Lemma bind_session_destroy {B} (k : unit -> M B) st :
  bind session_destroy k st = k tt (State ∅ (calls st) (drawn st)).
Proof. reflexivity. Qed.

Lemma bind_optional_substring {B} v (k : string -> M B) st :
  bind (optional_substring v) k st
  = if nullish_or_string v then k (token_prefix v) st else (Throw, st).
Proof. now destruct v. Qed.

Lemma bind_optional_endsWith {B} v suffix (k : value -> M B) st :
  bind (optional_endsWith v suffix) k st
  = if nullish_or_string v then k (endsWith_value v suffix) st else (Throw, st).
Proof. now destruct v. Qed.

(** A value with one readable property has them all. *)
Lemma prop_defined v key key' x :
  prop v key = Some x -> prop v key' = Some (default VUndef (prop v key')).
Proof. destruct v; cbn; intros H; try discriminate; reflexivity. Qed.

Ltac exec_all_step :=
  first
    [ rewrite bind_optional_substring
    | rewrite bind_optional_endsWith
    | exec_step
    | match goal with
      | H : prop ?v _ = Some _
        |- context [match prop ?v ?key with Some _ => _ | None => _ end] =>
          rewrite (prop_defined v _ key _ H)
      | |- context [bind (when ?b _) _ _] => destruct b eqn:?
      | |- context [if ?b then _ else _] => destruct b eqn:?
      | |- context [match ?up ?r with NetworkError => _ | Response _ _ => _ end] =>
          destruct (up r) as [|? [?|]] eqn:?
      | |- context [match prop ?v ?key with Some _ => _ | None => _ end] =>
          destruct (prop v key) eqn:?
      end ].

Ltac exec_all := unfold mbind, M_bind, try_catch; repeat exec_all_step.

Ltac frame_lookups :=
  repeat first
    [ rewrite lookup_insert_ne by assumption
    | rewrite lookup_delete_ne by assumption ].

Section Paths.
Variable config : Config.
Variable upstream : request -> fetch_result.

(** X2: on every path the callback routes write or delete only the five
    session properties of the flow; any other property of the session is
    after the request what it was before. *)
Theorem callback_touches_flow_keys r query sess key :
  ~ In key flow_keys ->
  session_after (handle (callback config upstream r query) sess) !! key
  = sess !! key.
Proof.
  intros Hkey.
  assert (H1 : "oauthState" <> key) by (intros <-; apply Hkey; cbn; tauto).
  assert (H2 : "codeVerifier" <> key) by (intros <-; apply Hkey; cbn; tauto).
  assert (H3 : "accessToken" <> key) by (intros <-; apply Hkey; cbn; tauto).
  assert (H4 : "refreshToken" <> key) by (intros <-; apply Hkey; cbn; tauto).
  assert (H5 : "user" <> key) by (intros <-; apply Hkey; cbn; tauto).
  destruct r; unfold callback; name_outcome.
  - unfold auth_callback. exec_all; read_outcome;
      frame_lookups; reflexivity.
  - unfold auth_callback_popup. exec_all; read_outcome;
      frame_lookups; reflexivity.
Qed.


(** X3: without a provider error, [/auth/callback] answers a state that is
    not the stored one with the CSRF page, and a matching state without a
    stored verifier with the missing-verifier page; in both cases nothing is
    contacted and the session is untouched. *)
Theorem callback_rejects_unvalidated query sess :
  truthy (field query "error") = false ->
  nullish_or_string (field query "state") = true ->
  strict_eq (field query "state") (field sess "oauthState") = false
  \/ truthy (field sess "codeVerifier") = false ->
  handle (auth_callback config upstream query) sess
  = Outcome
      (Some (Send 200 (authorization_failed
         (if strict_eq (field query "state") (field sess "oauthState")
          then "Missing code verifier. Session may have expired."
          else "Invalid state parameter. Possible CSRF attack."))))
      sess [].
Proof.
  intros He Hn H. unfold handle, auth_callback.
  rewrite (optional_endsWith_defined _ _ Hn). exec.
  destruct (strict_eq (field query "state") (field sess "oauthState")) eqn:Es;
    exec; [|reflexivity].
  destruct H as [H|H]; [discriminate|]. exec. reflexivity.
Qed.

(** X4: [/auth/callback-popup] answers 400 [Invalid state] when the state is
    truthy and differs from the stored one, and otherwise 400 [Session expired]
    when no verifier is stored; nothing is contacted, the session is
    untouched. *)
Theorem callback_popup_rejects query sess :
  let differs := truthy (field query "state")
                 && negb (strict_eq (field query "state") (field sess "oauthState")) in
  differs = true \/ truthy (field sess "codeVerifier") = false ->
  handle (auth_callback_popup config upstream query) sess
  = Outcome
      (Some (Send 400 (if differs then "Invalid state" else "Session expired")))
      sess [].
Proof.
  intros differs H. subst differs. unfold handle, auth_callback_popup. exec.
  destruct (truthy (field query "state")
            && negb (strict_eq (field query "state") (field sess "oauthState")));
    exec; [reflexivity|].
  destruct H as [H|H]; [discriminate|]. exec. reflexivity.
Qed.

(** X5: when the token request is made and fails in transport, or its body
    is not JSON, or is the JSON [null], the exception is caught: the route
    answers its 500 text, only the token endpoint was contacted, and the
    session, pending authorization included, is as before. *)
Theorem exchange_transport_failure r query sess :
  let token := token_request config (field query "code") (field sess "codeVerifier") in
  contacted (handle (callback config upstream r query) sess) <> [] ->
  upstream token = NetworkError
  \/ (exists ok, upstream token = Response ok None)
  \/ (exists ok, upstream token = Response ok (Some VNull)) ->
  handle (callback config upstream r query) sess
  = Outcome (Some (exchange_failure r)) sess [token].
Proof.
  intros token Hc Hup. subst token. destruct r; unfold callback in *.
  - apply auth_callback_attempted in Hc as (He & Hn & Hs & Hv).
    unfold handle, auth_callback. rewrite (optional_endsWith_defined _ _ Hn).
    destruct Hup as [Hup|[[ok Hup]|[ok Hup]]]; exec; reflexivity.
  - apply auth_callback_popup_attempted in Hc as (Hs & Hv).
    unfold handle, auth_callback_popup.
    destruct Hup as [Hup|[[ok Hup]|[ok Hup]]]; exec; reflexivity.
Qed.

(** X6: on [/auth/callback] a token response without a truthy error whose
    [access_token] or [refresh_token] is neither a string nor absent makes the
    log line throw ([substring] of a non-string): the route answers 500 before
    anything is stored, and no profile is requested. *)
Theorem callback_non_string_token query sess ok props :
  contacted (handle (auth_callback config upstream query) sess) <> [] ->
  upstream (token_request config (field query "code") (field sess "codeVerifier"))
    = Response ok (Some (VObj props)) ->
  truthy (assoc "error" props) = false ->
  nullish_or_string (assoc "access_token" props)
    && nullish_or_string (assoc "refresh_token" props) = false ->
  handle (auth_callback config upstream query) sess
  = Outcome (Some (Send 500 "Failed to exchange code for tokens")) sess
      [token_request config (field query "code") (field sess "codeVerifier")].
Proof.
  intros Hc Hup Herr Hbad.
  apply auth_callback_attempted in Hc as (He & Hn & Hs & Hv).
  unfold handle, auth_callback. rewrite (optional_endsWith_defined _ _ Hn).
  exec. rewrite !bind_optional_substring.
  destruct (nullish_or_string (assoc "access_token" props)); exec;
    [|reflexivity].
  rewrite bind_optional_substring.
  destruct (nullish_or_string (assoc "refresh_token" props)); [discriminate|].
  reflexivity.
Qed.

(** X7: when the exchange succeeds and the profile request then fails in
    transport, the route answers its 500 text, but the tokens are already in
    the session and the pending authorization is already gone. *)
Theorem profile_network_failure r query sess ok props access refresh :
  contacted (handle (callback config upstream r query) sess) <> [] ->
  upstream (token_request config (field query "code") (field sess "codeVerifier"))
    = Response ok (Some (VObj props)) ->
  truthy (assoc "error" props) = false ->
  assoc "access_token" props = VStr access ->
  assoc "refresh_token" props = VStr refresh ->
  upstream (profile_request config (VStr access)) = NetworkError ->
  handle (callback config upstream r query) sess
  = Outcome (Some (exchange_failure r))
      (delete "codeVerifier" (delete "oauthState"
         (<["refreshToken" := VStr refresh]>
            (<["accessToken" := VStr access]> sess))))
      [token_request config (field query "code") (field sess "codeVerifier");
       profile_request config (VStr access)].
Proof.
  intros Hc Hup Herr Ha Hr Hp. destruct r; unfold callback in *.
  - apply auth_callback_attempted in Hc as (He & Hn & Hs & Hv).
    unfold handle, auth_callback. rewrite (optional_endsWith_defined _ _ Hn).
    exec. reflexivity.
  - apply auth_callback_popup_attempted in Hc as (Hs & Hv).
    unfold handle, auth_callback_popup. exec. reflexivity.
Qed.

(** X8: [/api/organizations] never changes the session, and with a token
    (a non-empty string) in the session an upstream that fails in transport
    or answers a body that is not JSON gives 500 [Failed to fetch
    organizations] after that one call, which carries the token as bearer. *)
Theorem organizations_failure sess :
  let out := handle (api_organizations config upstream) sess in
  session_after out = sess
  /\ (forall token,
        field sess "accessToken" = VStr token -> token <> "" ->
        let call := Request (INSFORGE_URL config ++ "/organizations/v1") "GET"
                      [("Authorization", "Bearer " ++ token)] None in
        upstream call = NetworkError \/ (exists ok, upstream call = Response ok None) ->
        sent out
        = Some (Json 500 (VObj [("error", VStr "Failed to fetch organizations")]))
        /\ contacted out = [call]).
Proof.
  intros out. subst out. split.
  - name_outcome. unfold api_organizations. exec_all; read_outcome; reflexivity.
  - intros token Ht Hne call Hup. subst call.
    assert (Htr : truthy (field sess "accessToken") = true).
    { rewrite Ht. cbn [truthy]. now destruct token. }
    name_outcome. unfold api_organizations. exec.
    unfold organizations_request. cbn [toString].
    destruct Hup as [Hup|[ok Hup]]; exec; read_outcome; split; reflexivity.
Qed.
End Paths.

Lemma field_insert_eq (o : gmap string value) key v : field (<[key := v]> o) key = v.
Proof. unfold field. now rewrite lookup_insert_eq. Qed.

Lemma field_delete_eq (o : gmap string value) key : field (delete key o) key = VUndef.
Proof. unfold field. now rewrite lookup_delete_eq. Qed.

Lemma field_empty key : field ∅ key = VUndef.
Proof. reflexivity. Qed.

Lemma nonempty_truthy s n : String.length s = S n -> truthy (VStr s) = true.
Proof. destruct s; [discriminate | reflexivity]. Qed.

Lemma verifier_truthy (buf : list byte) :
  length buf = 32 -> truthy (VStr (base64url buf)) = true.
Proof.
  intros H. apply (nonempty_truthy _ 42). now rewrite base64url_length, H.
Qed.

Lemma entropy_length (entropy : nat -> byte) start n :
  length (map entropy (seq start n)) = n.
Proof. now rewrite length_map, length_seq. Qed.

Lemma strict_eq_refl_string s : strict_eq (VStr s) (VStr s) = true.
Proof. apply String.eqb_refl. Qed.

Ltac accumulates :=
  repeat first
    [ apply grows_bind | apply grows_try_catch | apply grows_when
    | apply grows_ret | apply grows_respond | apply grows_throw
    | apply grows_session_get | apply grows_session_set
    | apply grows_session_delete | apply grows_fetch | apply grows_get
    | apply grows_json_of | apply grows_optional_substring
    | apply grows_optional_endsWith | apply grows_sendError | intro ].

Section EndToEnd.
Variable config : Config.
Variable upstream : request -> fetch_result.
Variable entropy : nat -> byte.

Lemma echoed_fields r code :
  field (echoed entropy r code) "code" = code
  /\ field (echoed entropy r code) "state" = VStr (state_token r (map entropy (seq 32 16)))
  /\ field (echoed entropy r code) "error" = VUndef
  /\ field (echoed entropy r code) "error_description" = VUndef.
Proof.
  unfold echoed. split; [|split; [|split]].
  - rewrite field_insert_ne by discriminate. apply field_insert_eq.
  - apply field_insert_eq.
  - now rewrite !field_insert_ne by discriminate.
  - now rewrite !field_insert_ne by discriminate.
Qed.

Lemma started_fields r sess :
  let started := session_after (handle (login config entropy r) sess) in
  field started "codeVerifier" = VStr (base64url (map entropy (seq 0 32)))
  /\ field started "oauthState" = VStr (state_token r (map entropy (seq 32 16))).
Proof.
  cbv zeta. rewrite login_outcome. cbn [session_after]. split.
  - apply field_insert_eq.
  - rewrite field_insert_ne by discriminate. apply field_insert_eq.
Qed.

(** X9: a callback that echoes the state of the flow just started, on
    either callback route and whatever the session held before, passes
    validation: the first outbound call is the token request with the code of
    the callback and the verifier the login route stored. *)
Theorem login_then_callback r r' code sess :
  let started := session_after (handle (login config entropy r) sess) in
  exists rest,
    contacted (handle (callback config upstream r' (echoed entropy r code)) started)
    = token_request config code (VStr (base64url (map entropy (seq 0 32)))) :: rest.
Proof.
  intros started.
  destruct (echoed_fields r code) as (Hc & Hs & He & _).
  destruct (started_fields r sess) as (Hv & Ho). fold started in Hv, Ho.
  clearbody started.
  rewrite handle_contacted. destruct r'; unfold callback.
  - unfold auth_callback. rewrite Hc, Hs, He. cbn [truthy]. exec_prelude.
    rewrite strict_eq_refl_string. exec_prelude.
    rewrite verifier_truthy by apply entropy_length. exec_prelude.
    apply (fetch_first _ _ _ _ (State started [] 0)); accumulates.
  - unfold auth_callback_popup. rewrite Hc, Hs. exec_prelude.
    rewrite strict_eq_refl_string, andb_false_r. exec_prelude.
    rewrite verifier_truthy by apply entropy_length. exec_prelude.
    apply (fetch_first _ _ _ _ (State started [] 0)); accumulates.
Qed.

(** X10: the whole redirect flow.  After a login route, the echoed callback
    on [/auth/callback], against an authorization server that answers tokens
    and a profile, ends with both calls made, the tokens and the user stored,
    the pending authorization removed, and the redirect to [/] or the popup
    page according to the login route used. *)
Theorem flow_completes r code sess ok props access refresh pprops :
  let started := session_after (handle (login config entropy r) sess) in
  let verifier := base64url (map entropy (seq 0 32)) in
  let out := handle (auth_callback config upstream (echoed entropy r code)) started in
  upstream (token_request config code (VStr verifier))
    = Response ok (Some (VObj props)) ->
  truthy (assoc "error" props) = false ->
  assoc "access_token" props = VStr access ->
  assoc "refresh_token" props = VStr refresh ->
  upstream (profile_request config (VStr access))
    = Response true (Some (VObj pprops)) ->
  sent out = Some match r with
                  | Login => Redirect "/"
                  | LoginPopup => Send 200 popup_page
                  end
  /\ contacted out = [token_request config code (VStr verifier);
                      profile_request config (VStr access)]
  /\ session_after out !! "accessToken" = Some (VStr access)
  /\ session_after out !! "refreshToken" = Some (VStr refresh)
  /\ session_after out !! "user" = Some (assoc "user" pprops)
  /\ session_after out !! "oauthState" = None
  /\ session_after out !! "codeVerifier" = None.
Proof.
  intros started verifier out Hup Herr Ha Hr Hp. subst out verifier.
  destruct (echoed_fields r code) as (Hc & Hs & He & _).
  destruct (started_fields r sess) as (Hv & Ho). fold started in Hv, Ho.
  clearbody started. name_outcome. unfold auth_callback.
  rewrite Hc, Hs, He. cbn [truthy]. exec.
  rewrite strict_eq_refl_string. exec.
  rewrite verifier_truthy by apply entropy_length. exec.
  destruct r; cbn [state_token truthy].
  - rewrite endsWith_hex_popup. exec. read_outcome. session_facts.
  - rewrite endsWith_popup_suffix. exec. read_outcome. session_facts.
Qed.

(** A successful exchange takes the verifier out of the session. *)
Lemma exchange_consumes_verifier r query sess ok props access refresh :
  contacted (handle (callback config upstream r query) sess) <> [] ->
  upstream (token_request config (field query "code") (field sess "codeVerifier"))
    = Response ok (Some (VObj props)) ->
  truthy (assoc "error" props) = false ->
  assoc "access_token" props = VStr access ->
  assoc "refresh_token" props = VStr refresh ->
  field (session_after (handle (callback config upstream r query) sess))
    "codeVerifier" = VUndef.
Proof.
  intros Hc Hup Herr Ha Hr. unfold field. destruct r; unfold callback in *.
  - apply auth_callback_attempted in Hc as (He & Hn & Hs & Hv).
    name_outcome. unfold auth_callback.
    rewrite (optional_endsWith_defined _ _ Hn).
    exec_cases; read_outcome; lookups; reflexivity.
  - apply auth_callback_popup_attempted in Hc as (Hs & Hv).
    name_outcome. unfold auth_callback_popup.
    exec_cases; read_outcome; lookups; reflexivity.
Qed.

(** X11: a pending authorization is single use.  After a callback that
    exchanged its code successfully, any further callback on either route, with
    any query, contacts nothing and leaves the session as it is. *)
Theorem replay_rejected r r' query query' sess ok props access refresh :
  let out := handle (callback config upstream r query) sess in
  contacted out <> [] ->
  upstream (token_request config (field query "code") (field sess "codeVerifier"))
    = Response ok (Some (VObj props)) ->
  truthy (assoc "error" props) = false ->
  assoc "access_token" props = VStr access ->
  assoc "refresh_token" props = VStr refresh ->
  contacted (handle (callback config upstream r' query') (session_after out)) = []
  /\ session_after (handle (callback config upstream r' query') (session_after out))
     = session_after out.
Proof.
  intros out Hc Hup Herr Ha Hr.
  pose proof (exchange_consumes_verifier r query sess ok props access refresh
                Hc Hup Herr Ha Hr) as Hv.
  fold out in Hv. clearbody out.
  assert (Ht : truthy (field (session_after out) "codeVerifier") = false)
    by now rewrite Hv.
  destruct r'; unfold callback.
  - destruct (auth_callback_guard config upstream query' (session_after out)
                (or_intror Ht)) as (H1 & H2 & _). now split.
  - destruct (auth_callback_popup_guard config upstream query' (session_after out)
                (or_intror Ht)) as (H1 & H2 & _). now split.
Qed.

(** X12: after a successful exchange, [/api/organizations] calls the
    organizations endpoint once with the access token just stored as bearer
    token; only an empty access token gives no call. *)
Theorem proxy_after_login r query sess ok props access refresh :
  let out := handle (callback config upstream r query) sess in
  contacted out <> [] ->
  upstream (token_request config (field query "code") (field sess "codeVerifier"))
    = Response ok (Some (VObj props)) ->
  truthy (assoc "error" props) = false ->
  assoc "access_token" props = VStr access ->
  assoc "refresh_token" props = VStr refresh ->
  contacted (handle (api_organizations config upstream) (session_after out))
  = if String.eqb access "" then []
    else [Request (INSFORGE_URL config ++ "/organizations/v1") "GET"
            [("Authorization", "Bearer " ++ access)] None].
Proof.
  intros out Hc Hup Herr Ha Hr.
  assert (Hf : field (session_after out) "accessToken" = VStr access).
  { subst out. unfold field. destruct r; unfold callback in *.
    - apply auth_callback_attempted in Hc as (He & Hn & Hs & Hv).
      name_outcome. unfold auth_callback.
      rewrite (optional_endsWith_defined _ _ Hn).
      exec_cases; read_outcome; lookups; reflexivity.
    - apply auth_callback_popup_attempted in Hc as (Hs & Hv).
      name_outcome. unfold auth_callback_popup.
      exec_cases; read_outcome; lookups; reflexivity. }
  clearbody out. clear Hc Hup. name_outcome. unfold api_organizations. exec.
  cbn [truthy]. destruct (String.eqb access ""); exec.
  - read_outcome. reflexivity.
  - unfold organizations_request. cbn [toString].
    destruct (upstream _) as [|? [?|]]; exec; read_outcome; reflexivity.
Qed.

(** X13: [/auth/logout] redirects to [/] and leaves an empty session, on
    which [/api/organizations] answers 401 and no callback route, of either
    version, contacts the authorization server. *)
Theorem logout_ends_session r query sess :
  let closed := session_after (handle auth_logout sess) in
  sent (handle auth_logout sess) = Some (Redirect "/")
  /\ closed = ∅
  /\ handle (api_organizations config upstream) closed
     = Outcome (Some (Json 401 (VObj [("error", VStr "Not authenticated")]))) ∅ []
  /\ contacted (handle (callback config upstream r query) closed) = []
  /\ contacted (handle (auth_callback_v1 config upstream query) closed) = [].
Proof.
  intros closed. subst closed.
  assert (E : handle auth_logout sess = Outcome (Some (Redirect "/")) ∅ []).
  { unfold handle, auth_logout, mbind, M_bind.
    rewrite bind_session_destroy. reflexivity. }
  rewrite E. cbn [sent session_after].
  assert (Ht : truthy (field (∅ : gmap string value) "codeVerifier") = false)
    by reflexivity.
  split; [reflexivity|]. split; [reflexivity|]. split; [|split].
  - unfold handle, api_organizations. exec. reflexivity.
  - destruct r; unfold callback.
    + now destruct (auth_callback_guard config upstream query ∅
                      (or_intror Ht)) as (H1 & _).
    + now destruct (auth_callback_popup_guard config upstream query ∅
                      (or_intror Ht)) as (H1 & _).
  - name_outcome. unfold auth_callback_v1.
    exec. destruct (truthy (field query "error")); exec; [now read_outcome|].
    destruct (strict_eq (field query "state") _); exec; now read_outcome.
Qed.

(** X14: starting a flow twice leaves the session the second start alone
    would have left: the later pending authorization replaces the earlier
    one. *)
Theorem relogin_replaces_pending (entropy' : nat -> byte) r r' sess :
  session_after
    (handle (login config entropy' r')
       (session_after (handle (login config entropy r) sess)))
  = session_after (handle (login config entropy' r') sess).
Proof.
  rewrite !login_outcome. cbn [session_after].
  rewrite (insert_insert_ne _ "oauthState" "codeVerifier") by discriminate.
  now rewrite !insert_insert_eq.
Qed.
End EndToEnd.

Section ModeRecovery.
Variable config : Config.
Variable upstream : request -> fetch_result.
Variable entropy : nat -> byte.

(** C6: the state [/auth/login] stores is the hex encoding of its 16 random
    bytes, 32 characters, and the one [/auth/login-popup] stores is that
    followed by [:popup]; no hex encoding contains [:]. When the state
    comes back on [/auth/callback] and the exchange goes through, the
    suffix test of the handler recovers the route the flow started on: the
    answer is the popup page after [/auth/login-popup], and the redirect to
    [/] after [/auth/login], never the popup page. *)
Theorem state_mode_recoverable r code sess ok props access refresh :
  let nonce := map entropy (seq 32 16) in
  let started := session_after (handle (login config entropy r) sess) in
  let returned := <["state" := field started "oauthState"]> (<["code" := code]> ∅) in
  let out := handle (auth_callback config upstream returned) started in
  upstream (token_request config code (field started "codeVerifier"))
    = Response ok (Some (VObj props)) ->
  truthy (assoc "error" props) = false ->
  assoc "access_token" props = VStr access ->
  assoc "refresh_token" props = VStr refresh ->
  (exists body,
     upstream (profile_request config (VStr access)) = Response false body)
  \/ (exists profile user,
        upstream (profile_request config (VStr access))
        = Response true (Some profile)
        /\ prop profile "user" = Some user) ->
  started !! "oauthState"
  = Some (VStr match r with
               | Login => hex nonce
               | LoginPopup => hex nonce ++ ":popup"
               end)
  /\ String.length (hex nonce) = 32
  /\ (forall bytes : list byte, occurs ":" (hex bytes) = false)
  /\ sent out = Some match r with
                     | Login => Redirect "/"
                     | LoginPopup => Send 200 popup_page
                     end
  /\ (sent out = Some (Send 200 popup_page) <-> r = LoginPopup).
Proof.
  intros nonce started returned out Hup Herr Ha Hr Hp.
  destruct (started_fields config entropy r sess) as (Hv & Ho).
  fold started in Hv, Ho.
  assert (Hst : started !! "oauthState"
                = Some (VStr (state_token r nonce))).
  { subst started. rewrite login_outcome. cbn [session_after].
    rewrite lookup_insert_ne by discriminate. apply lookup_insert_eq. }
  assert (Hsent : sent out = Some match r with
                                  | Login => Redirect "/"
                                  | LoginPopup => Send 200 popup_page
                                  end).
  { rewrite Hv in Hup.
    assert (Fc : field returned "code" = code).
    { subst returned. rewrite field_insert_ne by discriminate.
      apply field_insert_eq. }
    assert (Fs : field returned "state" = VStr (state_token r nonce)).
    { subst returned. rewrite field_insert_eq. exact Ho. }
    assert (Fe : field returned "error" = VUndef).
    { subst returned. now rewrite !field_insert_ne by discriminate. }
    subst out. clearbody returned started. name_outcome. unfold auth_callback.
    rewrite Fc, Fs, Fe. cbn [truthy]. exec.
    rewrite strict_eq_refl_string. exec.
    rewrite verifier_truthy by apply entropy_length. exec.
    destruct r; cbn [state_token truthy].
    - rewrite endsWith_hex_popup.
      destruct Hp as [[body Hp]|(profile & user & Hp & Hu)]; exec;
        now read_outcome.
    - rewrite endsWith_popup_suffix.
      destruct Hp as [[body Hp]|(profile & user & Hp & Hu)]; exec;
        now read_outcome. }
  split; [rewrite Hst; now destruct r|].
  split; [subst nonce; now rewrite hex_length, entropy_length|].
  split; [apply hex_no_colon|].
  split; [exact Hsent|].
  rewrite Hsent. destruct r; split; intros H; try reflexivity; discriminate H.
Qed.
End ModeRecovery.

Lemma hex_byte_ok_all b : hex_byte_ok b = true.
Proof. revert b. apply forall_byte. vm_compute. reflexivity. Qed.

Lemma hex_decode_encode (buf : list byte) : hex_decode (hex buf) = buf.
Proof.
  induction buf as [|b rest IH]; [reflexivity|].
  cbn [hex hex_decode]. rewrite IH. f_equal.
  apply byte_eqb_eq. apply hex_byte_ok_all.
Qed.

Lemma hex_injective (a b : list byte) : hex a = hex b -> a = b.
Proof.
  intros H. rewrite <- (hex_decode_encode a), <- (hex_decode_encode b).
  now rewrite H.
Qed.

Lemma append_cancel_suffix (s s' t : string) : s ++ t = s' ++ t -> s = s'.
Proof.
  intros H.
  assert (L : String.length s = String.length s').
  { apply (f_equal String.length) in H. rewrite !length_append in H. lia. }
  revert s' H L. induction s as [|c s IH]; intros [|c' s'] H L;
    try discriminate; [reflexivity|].
  rewrite !append_cons in H. injection H as -> H.
  f_equal. apply IH; [exact H | now injection L].
Qed.

(** The state token determines the route and the nonce it was built from. *)
Lemma state_token_injective r r' (nonce nonce' : list byte) :
  state_token r nonce = state_token r' nonce' -> r = r' /\ nonce = nonce'.
Proof.
  destruct r, r'; cbn [state_token]; intros H.
  - split; [reflexivity | now apply hex_injective].
  - exfalso. pose proof (hex_no_colon nonce) as Hc.
    rewrite H, occurs_app in Hc. apply orb_false_elim in Hc as [_ Hc].
    discriminate Hc.
  - exfalso. pose proof (hex_no_colon nonce') as Hc.
    rewrite <- H, occurs_app in Hc. apply orb_false_elim in Hc as [_ Hc].
    discriminate Hc.
  - split; [reflexivity|]. now apply hex_injective, (append_cancel_suffix _ _ ":popup").
Qed.

Section Pending.
Variable config : Config.

(** X15: a login route stores a verifier of 43 base64url characters and a
    state of 32 characters (38 in popup mode), both truthy, contacts nothing
    and leaves every other session property as it was. *)
Theorem pending_authorization_format entropy r sess :
  let out := handle (login config entropy r) sess in
  exists verifier state,
    session_after out !! "codeVerifier" = Some (VStr verifier)
    /\ session_after out !! "oauthState" = Some (VStr state)
    /\ String.length verifier = 43
    /\ all_chars (in_alphabet base64url_alphabet) verifier = true
    /\ String.length state = match r with Login => 32 | LoginPopup => 38 end
    /\ truthy (VStr verifier) = true
    /\ truthy (VStr state) = true
    /\ contacted out = []
    /\ forall key, key <> "codeVerifier" -> key <> "oauthState" ->
         session_after out !! key = sess !! key.
Proof.
  intros out. subst out. rewrite login_outcome. cbn [session_after contacted].
  exists (base64url (map entropy (seq 0 32))),
    (state_token r (map entropy (seq 32 16))).
  assert (Hs : String.length (state_token r (map entropy (seq 32 16)))
               = match r with Login => 32 | LoginPopup => 38 end).
  { destruct r; cbn [state_token]; rewrite ?length_append, hex_length,
      entropy_length; reflexivity. }
  split; [apply lookup_insert_eq|].
  split; [rewrite lookup_insert_ne by discriminate; apply lookup_insert_eq|].
  split; [now rewrite base64url_length, entropy_length|].
  split; [apply base64url_chars|].
  split; [exact Hs|].
  split; [apply verifier_truthy, entropy_length|].
  split; [destruct r; eapply nonempty_truthy; rewrite Hs; reflexivity|].
  split; [reflexivity|].
  intros key H1 H2. now rewrite !lookup_insert_ne by congruence.
Qed.

(** X16: the stored verifier determines the 32 random bytes it was drawn
    from, and the stored state determines the route and the 16 random bytes:
    two flows share a verifier or a state only if the random source repeated
    itself. *)
Theorem pending_authorization_entropy entropy entropy' r r' sess sess' :
  let out := handle (login config entropy r) sess in
  let out' := handle (login config entropy' r') sess' in
  (session_after out !! "codeVerifier" = session_after out' !! "codeVerifier" ->
   map entropy (seq 0 32) = map entropy' (seq 0 32))
  /\ (session_after out !! "oauthState" = session_after out' !! "oauthState" ->
      r = r' /\ map entropy (seq 32 16) = map entropy' (seq 32 16)).
Proof.
  intros out out'. subst out out'. rewrite !login_outcome. cbn [session_after].
  split; intros H.
  - rewrite !lookup_insert_eq in H.
    apply base64url_injective. congruence.
  - rewrite !(lookup_insert_ne _ "codeVerifier" "oauthState") in H by discriminate.
    rewrite !lookup_insert_eq in H.
    apply state_token_injective. congruence.
Qed.
End Pending.

Lemma percent_encode_chars c : all_chars is_urlencoded (percent_encode c) = true.
Proof. destruct c as [[] [] [] [] [] [] [] []]; vm_compute; reflexivity. Qed.

Lemma urlencode_chars s : all_chars is_urlencoded (urlencode s) = true.
Proof.
  induction s as [|c s IH]; [reflexivity|].
  cbn [urlencode]. now rewrite all_chars_app, percent_encode_chars, IH.
Qed.

Lemma count_app c s t : count c (s ++ t) = count c s + count c t.
Proof.
  induction s as [|d s IH]; [reflexivity|].
  rewrite append_cons. cbn [count]. rewrite IH. lia.
Qed.

Lemma count_outside p c s :
  p c = false -> all_chars p s = true -> count c s = 0.
Proof.
  intros Hc. induction s as [|d s IH]; [reflexivity|].
  cbn [all_chars count]. intros H. apply andb_prop in H as [Hd Hs].
  rewrite (IH Hs). destruct (Ascii.eqb_spec c d) as [->|]; [congruence | reflexivity].
Qed.

Lemma count_urlencode c s : is_urlencoded c = false -> count c (urlencode s) = 0.
Proof. intros H. apply (count_outside _ _ _ H), urlencode_chars. Qed.

Lemma count_challenge c verifier :
  is_urlencoded c = false -> count c (generateCodeChallenge verifier) = 0.
Proof. intros H. rewrite <- urlencode_challenge. now apply count_urlencode. Qed.

Section QueryString.
Variable config : Config.

(** X17: for a [config.INSFORGE_URL] that is a plain origin, the address a
    login route redirects to is the authorize endpoint, a question mark, and
    a query string with exactly six [&] and seven [=]: seven parameters,
    whatever the other configuration values contain, and no character
    outside the ones the serializer writes. *)
Theorem redirect_query_shape entropy r sess :
  plain_origin (INSFORGE_URL config) = true ->
  exists query,
    sent (handle (login config entropy r) sess)
    = Some (Redirect ((INSFORGE_URL config ++ "/api/oauth/v1/authorize")
                      ++ "?" ++ query))
    /\ count "&" query = 6
    /\ count "=" query = 7
    /\ forall c, is_urlencoded c = false -> c <> "&"%char -> c <> "="%char ->
         count c query = 0.
Proof.
  intros _. rewrite login_outcome. cbn [sent].
  rewrite authorize_url_string, urlencode_challenge.
  exists ("client_id=" ++ urlencode (INSFORGE_CLIENT_ID config)
          ++ "&redirect_uri=" ++ urlencode (CALLBACK_URL config)
          ++ "&response_type=code"
          ++ "&scope=" ++ urlencode (SCOPES config)
          ++ "&state=" ++ urlencode (state_token r (map entropy (seq 32 16)))
          ++ "&code_challenge="
          ++ generateCodeChallenge (base64url (map entropy (seq 0 32)))
          ++ "&code_challenge_method=S256").
  split; [reflexivity|].
  split; [|split].
  - rewrite !count_app, !count_urlencode, count_challenge by reflexivity.
    reflexivity.
  - rewrite !count_app, !count_urlencode, count_challenge by reflexivity.
    reflexivity.
  - intros c Hc Hamp Heq.
    rewrite !count_app, !count_urlencode, count_challenge by assumption.
    destruct c as [[] [] [] [] [] [] [] []];
      try discriminate Hc; try reflexivity; congruence.
Qed.
End QueryString.

Section FirstVersionFacts.
Variable config : Config.
Variable upstream : request -> fetch_result.

(** X18: the first version of [/auth/callback] ([src/server.js]) shows the
    provider-error page when [error] is truthy (for an [error] that is a
    string or an array of strings, and a description that is one or absent),
    and otherwise answers status 400 to a state that is not the stored one or
    to a missing verifier; nothing is contacted and the session is
    untouched. *)
Theorem callback_v1_rejections query sess :
  let out := handle (auth_callback_v1 config upstream query) sess in
  let state_ok := strict_eq (field query "state") (field sess "oauthState") in
  (truthy (field query "error") = true ->
   textual (field query "error") = true ->
   absent_or_textual (field query "error_description") = true ->
   out = Outcome
           (Some (Send 200 (provider_error_page (field query "error")
                              (field query "error_description"))))
           sess [])
  /\ (truthy (field query "error") = false ->
      state_ok = false \/ truthy (field sess "codeVerifier") = false ->
      out = Outcome
              (Some (Send 400
                 (if state_ok
                  then "Missing code verifier. Session may have expired."
                  else "Invalid state parameter. Possible CSRF attack.")))
              sess []).
Proof.
  intros out state_ok. subst out state_ok. split.
  - intros He _ _. unfold handle, auth_callback_v1. exec. reflexivity.
  - intros He H. unfold handle, auth_callback_v1. exec.
    destruct (strict_eq (field query "state") (field sess "oauthState")) eqn:Es;
      exec; [|reflexivity].
    destruct H as [H|H]; [discriminate|]. exec. reflexivity.
Qed.

(** X19: the two versions of [/auth/callback] differ in pages and status
    codes only.  For a state that is a string or absent, and a network that
    answers the two profile addresses alike, they leave the same session and
    make the same number of calls, starting with the same one. *)
Theorem callback_versions_agree query sess :
  nullish_or_string (field query "state") = true ->
  (forall access,
     upstream (profile_request_v1 config access)
     = upstream (profile_request config access)) ->
  let old := handle (auth_callback_v1 config upstream query) sess in
  let new := handle (auth_callback config upstream query) sess in
  session_after old = session_after new
  /\ length (contacted old) = length (contacted new)
  /\ hd_error (contacted old) = hd_error (contacted new).
Proof.
  intros Hn Hsame old new. subst old new.
  unfold handle, auth_callback_v1, auth_callback.
  rewrite (optional_endsWith_defined _ _ Hn).
  unfold mbind, M_bind, try_catch.
  repeat first
    [ match goal with
      | |- context [upstream (profile_request_v1 _ _)] => rewrite Hsame
      end
    | exec_all_step ];
    cbn [sent session_after contacted]; repeat split; reflexivity.
Qed.

(** X20: the first version of [/api/organizations] never changes the
    session, answers 401 without a call when no token is stored, and otherwise
    makes one call to [/api/organizations/v1] and relays its JSON body, or
    answers 500 when there is none. *)
Theorem organizations_v1_requires_token sess :
  let accessToken := field sess "accessToken" in
  let out := handle (api_organizations_v1 config upstream) sess in
  session_after out = sess
  /\ (truthy accessToken = false ->
      sent out = Some (Json 401 (VObj [("error", VStr "Not authenticated")]))
      /\ contacted out = [])
  /\ (truthy accessToken = true ->
      contacted out
      = [Request (INSFORGE_URL config ++ "/api/organizations/v1") "GET"
           [("Authorization", "Bearer " ++ toString accessToken)] None]
      /\ sent out
         = Some match upstream (organizations_request_v1 config accessToken) with
                | Response _ (Some data) => Json 200 data
                | _ => Json 500 (VObj [("error", VStr "Failed to fetch organizations")])
                end).
Proof.
  intros accessToken out. subst accessToken out.
  split; [|split]; try intros H; name_outcome; unfold api_organizations_v1.
  - exec_all; read_outcome; reflexivity.
  - exec. read_outcome. split; reflexivity.
  - exec. unfold organizations_request_v1.
    destruct (upstream _) as [|ok [data|]]; exec; read_outcome; split; reflexivity.
Qed.
End FirstVersionFacts.

Section EarlyExits.
Variable config : Config.
Variable upstream : request -> fetch_result.

(** X21: a truthy [error] parameter that is a string or an array of
    strings, with a description that is one or absent, ends [/auth/callback]
    at once, whatever the state and the session: the page shows the error
    and the description (or nothing for a missing one), nothing is contacted
    and the session is untouched. *)
Theorem callback_provider_error_page query sess :
  truthy (field query "error") = true ->
  textual (field query "error") = true ->
  absent_or_textual (field query "error_description") = true ->
  handle (auth_callback config upstream query) sess
  = Outcome (Some (Send 200 (authorization_failed
       ("Error: " ++ toString (field query "error") ++ ". "
        ++ toString (or_else (field query "error_description") (VStr ""))))))
      sess [].
Proof. intros H _ _. now apply auth_callback_provider_error. Qed.

(** X22: a [state] parameter that is neither a string nor absent (the query
    parser gives an array for a repeated parameter) makes [/auth/callback]
    throw on [state?.endsWith] outside its [try]: the handler sends no answer,
    contacts nothing and leaves the session as it was. *)
Theorem callback_state_not_string query sess :
  truthy (field query "error") = false ->
  nullish_or_string (field query "state") = false ->
  handle (auth_callback config upstream query) sess = Outcome None sess [].
Proof. apply auth_callback_throws. Qed.

(** X23: [/auth/callback-popup] sends an answer on every path; and when
    [error] and [error_description] are each absent, a string or an array of
    strings, [/auth/callback] sends none exactly when there is no provider
    error and the state is neither a string nor absent. *)
Theorem callback_always_answers query sess :
  (exists answer,
     sent (handle (auth_callback_popup config upstream query) sess) = Some answer)
  /\ (absent_or_textual (field query "error") = true ->
      absent_or_textual (field query "error_description") = true ->
      (sent (handle (auth_callback config upstream query) sess) = None
       <-> truthy (field query "error") = false
           /\ nullish_or_string (field query "state") = false)).
Proof.
  split.
  - name_outcome. unfold auth_callback_popup.
    exec_all; read_outcome; eexists; reflexivity.
  - intros _ _. name_outcome. unfold auth_callback.
    exec_all; read_outcome; split;
      solve [ discriminate | intros [? ?]; congruence | intros _; now split ].
Qed.
End EarlyExits.

(** X24: a code challenge has 43 characters, all of the base64url alphabet,
    so that URL encoding leaves it as it is. *)
Theorem challenge_shape (verifier : string) :
  String.length (generateCodeChallenge verifier) = 43
  /\ all_chars (in_alphabet base64url_alphabet) (generateCodeChallenge verifier)
     = true
  /\ urlencode (generateCodeChallenge verifier) = generateCodeChallenge verifier.
Proof.
  split; [|split].
  - unfold generateCodeChallenge. now rewrite base64url_length, sha256_length.
  - apply base64url_chars.
  - apply urlencode_challenge.
Qed.

(** The theorems beyond the claims, at work on the samples. *)

Lemma callback_touches_flow_keys_witness :
  ~ In "cookie" flow_keys
  /\ session_after (handle (callback default_config sample_network Callback
                              sample_query) pending_session) !! "cookie"
     = pending_session !! "cookie".
Proof.
  assert (H : ~ In "cookie" flow_keys).
  { cbn. intros [H|[H|[H|[H|[H|[]]]]]]; discriminate H. }
  split; [exact H|].
  exact (callback_touches_flow_keys default_config sample_network Callback
           sample_query pending_session "cookie" H).
Defined.

Lemma callback_rejects_unvalidated_witness :
  truthy (field mismatched_query "error") = false
  /\ nullish_or_string (field mismatched_query "state") = true
  /\ strict_eq (field mismatched_query "state") (field pending_session "oauthState")
     = false
  /\ handle (auth_callback default_config sample_network mismatched_query)
       pending_session
     = Outcome
         (Some (Send 200 (authorization_failed
            "Invalid state parameter. Possible CSRF attack.")))
         pending_session [].
Proof.
  split; [reflexivity|]. split; [reflexivity|]. split; [reflexivity|].
  exact (callback_rejects_unvalidated default_config sample_network
           mismatched_query pending_session eq_refl eq_refl (or_introl eq_refl)).
Defined.

Lemma callback_popup_rejects_witness :
  truthy (field mismatched_query "state")
    && negb (strict_eq (field mismatched_query "state")
               (field pending_session "oauthState")) = true
  /\ handle (auth_callback_popup default_config sample_network mismatched_query)
       pending_session
     = Outcome (Some (Send 400 "Invalid state")) pending_session [].
Proof.
  split; [reflexivity|].
  exact (callback_popup_rejects default_config sample_network mismatched_query
           pending_session (or_introl eq_refl)).
Defined.

Lemma exchange_transport_failure_witness :
  contacted (handle (callback default_config network_down CallbackPopup
                       sample_query) pending_session) <> []
  /\ network_down (token_request default_config (field sample_query "code")
                     (field pending_session "codeVerifier")) = NetworkError
  /\ handle (callback default_config network_down CallbackPopup sample_query)
       pending_session
     = Outcome (Some (Send 500 "Token exchange failed")) pending_session
         [token_request default_config (VStr "ABC123") (VStr "v1")].
Proof.
  assert (Hc : contacted (handle (callback default_config network_down
                 CallbackPopup sample_query) pending_session) <> [])
    by (vm_compute; discriminate).
  split; [exact Hc|]. split; [reflexivity|].
  exact (exchange_transport_failure default_config network_down CallbackPopup
           sample_query pending_session Hc (or_introl eq_refl)).
Defined.

Lemma callback_non_string_token_witness :
  contacted (handle (auth_callback default_config numeric_token_network
                       sample_query) pending_session) <> []
  /\ numeric_token_network
       (token_request default_config (field sample_query "code")
          (field pending_session "codeVerifier"))
     = Response true (Some (VObj numeric_token))
  /\ truthy (assoc "error" numeric_token) = false
  /\ nullish_or_string (assoc "access_token" numeric_token)
       && nullish_or_string (assoc "refresh_token" numeric_token) = false
  /\ handle (auth_callback default_config numeric_token_network sample_query)
       pending_session
     = Outcome (Some (Send 500 "Failed to exchange code for tokens"))
         pending_session
         [token_request default_config (field sample_query "code")
            (field pending_session "codeVerifier")].
Proof.
  assert (Hc : contacted (handle (auth_callback default_config
                 numeric_token_network sample_query) pending_session) <> [])
    by (vm_compute; discriminate).
  split; [exact Hc|]. split; [reflexivity|]. split; [reflexivity|].
  split; [reflexivity|].
  exact (callback_non_string_token default_config numeric_token_network
           sample_query pending_session true numeric_token Hc
           eq_refl eq_refl eq_refl).
Defined.

Lemma profile_network_failure_witness :
  contacted (handle (callback default_config profile_unreachable_network Callback
                       sample_query) pending_session) <> []
  /\ profile_unreachable_network (profile_request default_config (VStr "T1"))
     = NetworkError
  /\ sent (handle (callback default_config profile_unreachable_network Callback
                     sample_query) pending_session)
     = Some (Send 500 "Failed to exchange code for tokens")
  /\ session_after (handle (callback default_config profile_unreachable_network
                              Callback sample_query) pending_session)
       !! "accessToken"
     = Some (VStr "T1").
Proof.
  assert (Hc : contacted (handle (callback default_config
                 profile_unreachable_network Callback sample_query)
                 pending_session) <> [])
    by (vm_compute; discriminate).
  split; [exact Hc|]. split; [reflexivity|].
  rewrite (profile_network_failure default_config profile_unreachable_network
             Callback sample_query pending_session true
             [("access_token", VStr "T1"); ("refresh_token", VStr "R1");
              ("expires_in", VNum 3600)] "T1" "R1" Hc
             eq_refl eq_refl eq_refl eq_refl eq_refl).
  split; reflexivity.
Defined.

Lemma organizations_failure_witness :
  field logged_in_session "accessToken" = VStr "T1"
  /\ network_down
       (Request "http://localhost:3000/organizations/v1" "GET"
          [("Authorization", "Bearer T1")] None)
     = NetworkError
  /\ sent (handle (api_organizations default_config network_down)
             logged_in_session)
     = Some (Json 500 (VObj [("error", VStr "Failed to fetch organizations")]))
  /\ contacted (handle (api_organizations default_config network_down)
                  logged_in_session)
     = [Request "http://localhost:3000/organizations/v1" "GET"
          [("Authorization", "Bearer T1")] None]
  /\ session_after (handle (api_organizations default_config network_down)
                      logged_in_session)
     = logged_in_session.
Proof.
  split; [reflexivity|]. split; [reflexivity|].
  destruct (organizations_failure default_config network_down logged_in_session)
    as [Hs Hf].
  assert (Hne : "T1" <> "") by discriminate.
  destruct (Hf "T1" eq_refl Hne (or_introl eq_refl)) as [H500 Hcall].
  split; [exact H500|]. split; [exact Hcall | exact Hs].
Defined.

Lemma flow_completes_witness :
  sent (handle (auth_callback default_config sample_network
                  (echoed counter LoginPopup (VStr "ABC123")))
          (session_after (handle (login default_config counter LoginPopup) ∅)))
  = Some (Send 200 popup_page)
  /\ session_after (handle (auth_callback default_config sample_network
                              (echoed counter LoginPopup (VStr "ABC123")))
                      (session_after
                         (handle (login default_config counter LoginPopup) ∅)))
       !! "user"
     = Some (VObj [("id", VStr "u1"); ("email", VStr "a@b.com")]).
Proof.
  destruct (flow_completes default_config sample_network counter LoginPopup
              (VStr "ABC123") ∅ true
              [("access_token", VStr "T1"); ("refresh_token", VStr "R1");
               ("expires_in", VNum 3600)] "T1" "R1"
              [("user", VObj [("id", VStr "u1"); ("email", VStr "a@b.com")])]
              eq_refl eq_refl eq_refl eq_refl eq_refl)
    as (Hs & _ & _ & _ & Hu & _).
  split; [exact Hs | exact Hu].
Defined.

Lemma replay_rejected_witness :
  contacted (handle (callback default_config sample_network Callback
                       sample_query) pending_session) <> []
  /\ contacted
       (handle (callback default_config sample_network CallbackPopup sample_query)
          (session_after (handle (callback default_config sample_network Callback
                                    sample_query) pending_session)))
     = [].
Proof.
  assert (Hc : contacted (handle (callback default_config sample_network Callback
                 sample_query) pending_session) <> [])
    by (vm_compute; discriminate).
  split; [exact Hc|].
  exact (proj1 (replay_rejected default_config sample_network Callback
                  CallbackPopup sample_query sample_query pending_session true
                  [("access_token", VStr "T1"); ("refresh_token", VStr "R1");
                   ("expires_in", VNum 3600)] "T1" "R1" Hc
                  eq_refl eq_refl eq_refl eq_refl)).
Defined.

Lemma proxy_after_login_witness :
  contacted (handle (callback default_config sample_network Callback
                       sample_query) pending_session) <> []
  /\ contacted
       (handle (api_organizations default_config sample_network)
          (session_after (handle (callback default_config sample_network Callback
                                    sample_query) pending_session)))
     = [Request "http://localhost:3000/organizations/v1" "GET"
          [("Authorization", "Bearer T1")] None].
Proof.
  assert (Hc : contacted (handle (callback default_config sample_network Callback
                 sample_query) pending_session) <> [])
    by (vm_compute; discriminate).
  split; [exact Hc|].
  exact (proxy_after_login default_config sample_network Callback sample_query
           pending_session true
           [("access_token", VStr "T1"); ("refresh_token", VStr "R1");
            ("expires_in", VNum 3600)] "T1" "R1" Hc
           eq_refl eq_refl eq_refl eq_refl).
Defined.

Lemma state_token_injective_witness :
  state_token LoginPopup [x0a; xff] = state_token LoginPopup [x0a; xff]
  /\ LoginPopup = LoginPopup /\ [x0a; xff] = [x0a; xff].
Proof.
  split; [reflexivity|].
  exact (state_token_injective LoginPopup LoginPopup [x0a; xff] [x0a; xff] eq_refl).
Defined.

Lemma pending_authorization_entropy_witness :
  session_after (handle (login default_config counter Login) ∅) !! "oauthState"
  = session_after (handle (login default_config counter Login) pending_session)
      !! "oauthState"
  /\ map counter (seq 32 16) = map counter (seq 32 16).
Proof.
  assert (H : session_after (handle (login default_config counter Login) ∅)
                !! "oauthState"
              = session_after (handle (login default_config counter Login)
                                 pending_session) !! "oauthState")
    by (vm_compute; reflexivity).
  split; [exact H|].
  exact (proj2 (proj2 (pending_authorization_entropy default_config counter counter
                         Login Login ∅ pending_session) H)).
Defined.

Lemma callback_v1_rejections_witness :
  truthy (field denied_query "error") = true
  /\ textual (field denied_query "error") = true
  /\ absent_or_textual (field denied_query "error_description") = true
  /\ sent (handle (auth_callback_v1 default_config sample_network denied_query)
             pending_session)
     = Some (Send 200 (provider_error_page (VStr "access_denied") VUndef))
  /\ truthy (field mismatched_query "error") = false
  /\ strict_eq (field mismatched_query "state") (field pending_session "oauthState")
     = false
  /\ handle (auth_callback_v1 default_config sample_network mismatched_query)
       pending_session
     = Outcome (Some (Send 400 "Invalid state parameter. Possible CSRF attack."))
         pending_session [].
Proof.
  split; [reflexivity|]. split; [reflexivity|]. split; [reflexivity|].
  destruct (callback_v1_rejections default_config sample_network denied_query
              pending_session) as [Hp _].
  split; [now rewrite (Hp eq_refl eq_refl eq_refl)|].
  split; [reflexivity|]. split; [reflexivity|].
  destruct (callback_v1_rejections default_config sample_network mismatched_query
              pending_session) as [_ Hm].
  exact (Hm eq_refl (or_introl eq_refl)).
Defined.

Lemma callback_versions_agree_witness :
  nullish_or_string (field sample_query "state") = true
  /\ (forall access,
        sample_network (profile_request_v1 default_config access)
        = sample_network (profile_request default_config access))
  /\ session_after (handle (auth_callback_v1 default_config sample_network
                              sample_query) pending_session)
     = session_after (handle (auth_callback default_config sample_network
                                sample_query) pending_session).
Proof.
  assert (H : forall access,
            sample_network (profile_request_v1 default_config access)
            = sample_network (profile_request default_config access))
    by (intros access; reflexivity).
  split; [reflexivity|]. split; [exact H|].
  exact (proj1 (callback_versions_agree default_config sample_network sample_query
                  pending_session eq_refl H)).
Defined.

Lemma organizations_v1_requires_token_witness :
  truthy (field pending_session "accessToken") = false
  /\ sent (handle (api_organizations_v1 default_config sample_network)
             pending_session)
     = Some (Json 401 (VObj [("error", VStr "Not authenticated")]))
  /\ truthy (field logged_in_session "accessToken") = true
  /\ contacted (handle (api_organizations_v1 default_config sample_network)
                  logged_in_session)
     = [Request "http://localhost:3000/api/organizations/v1" "GET"
          [("Authorization", "Bearer T1")] None].
Proof.
  split; [reflexivity|].
  destruct (organizations_v1_requires_token default_config sample_network
              pending_session) as (_ & H401 & _).
  split; [exact (proj1 (H401 eq_refl))|]. split; [reflexivity|].
  destruct (organizations_v1_requires_token default_config sample_network
              logged_in_session) as (_ & _ & H200).
  exact (proj1 (H200 eq_refl)).
Defined.

Lemma redirect_query_shape_witness :
  plain_origin (INSFORGE_URL default_config) = true
  /\ exists query,
       sent (handle (login default_config counter Login) ∅)
       = Some (Redirect (("http://localhost:3000" ++ "/api/oauth/v1/authorize")
                         ++ "?" ++ query))
       /\ count "&" query = 6
       /\ count "#" query = 0.
Proof.
  split; [reflexivity|].
  destruct (redirect_query_shape default_config counter Login ∅ eq_refl)
    as (query & Hs & Hamp & _ & Hc).
  exists query. split; [exact Hs|]. split; [exact Hamp|].
  apply Hc; [reflexivity | discriminate | discriminate].
Defined.

Lemma pending_authorization_format_witness :
  exists verifier state,
    session_after (handle (login default_config counter LoginPopup)
                     logged_in_session) !! "codeVerifier" = Some (VStr verifier)
    /\ session_after (handle (login default_config counter LoginPopup)
                        logged_in_session) !! "oauthState" = Some (VStr state)
    /\ String.length verifier = 43
    /\ String.length state = 38
    /\ session_after (handle (login default_config counter LoginPopup)
                        logged_in_session) !! "accessToken"
       = logged_in_session !! "accessToken".
Proof.
  destruct (pending_authorization_format default_config counter LoginPopup
              logged_in_session)
    as (verifier & state & Hv & Hs & Lv & _ & Ls & _ & _ & _ & Hf).
  exists verifier, state.
  split; [exact Hv|]. split; [exact Hs|]. split; [exact Lv|]. split; [exact Ls|].
  apply Hf; discriminate.
Defined.

Lemma callback_provider_error_page_witness :
  truthy (field denied_query "error") = true
  /\ textual (field denied_query "error") = true
  /\ absent_or_textual (field denied_query "error_description") = true
  /\ handle (auth_callback default_config sample_network denied_query)
       pending_session
     = Outcome (Some (Send 200 (authorization_failed "Error: access_denied. ")))
         pending_session [].
Proof.
  split; [reflexivity|]. split; [reflexivity|]. split; [reflexivity|].
  exact (callback_provider_error_page default_config sample_network denied_query
           pending_session eq_refl eq_refl eq_refl).
Defined.

Lemma callback_state_not_string_witness :
  truthy (field repeated_state_query "error") = false
  /\ nullish_or_string (field repeated_state_query "state") = false
  /\ handle (auth_callback default_config sample_network repeated_state_query)
       pending_session
     = Outcome None pending_session [].
Proof.
  split; [reflexivity|]. split; [reflexivity|].
  exact (callback_state_not_string default_config sample_network
           repeated_state_query pending_session eq_refl eq_refl).
Defined.

Lemma callback_always_answers_witness :
  absent_or_textual (field repeated_state_query "error") = true
  /\ absent_or_textual (field repeated_state_query "error_description") = true
  /\ sent (handle (auth_callback default_config sample_network
                     repeated_state_query) pending_session)
     = None
  /\ exists answer,
       sent (handle (auth_callback_popup default_config sample_network
                       repeated_state_query) pending_session)
       = Some answer.
Proof.
  split; [reflexivity|]. split; [reflexivity|].
  destruct (callback_always_answers default_config sample_network
              repeated_state_query pending_session) as [Hpopup Hcb].
  split; [|exact Hpopup].
  apply (Hcb eq_refl eq_refl). split; reflexivity.
Defined.

(** C6 at work: a flow started on each login route, and what the callback
    answers to the state that comes back. *)
Lemma state_mode_recoverable_witness :
  session_after (handle (login default_config counter LoginPopup) ∅)
    !! "oauthState"
  = Some (VStr "202122232425262728292a2b2c2d2e2f:popup")
  /\ sent (handle
             (auth_callback default_config sample_network
                (<["state" := field (session_after
                                       (handle (login default_config counter
                                                  LoginPopup) ∅))
                                "oauthState"]>
                   (<["code" := VStr "ABC123"]> ∅)))
             (session_after (handle (login default_config counter LoginPopup) ∅)))
     = Some (Send 200 popup_page)
  /\ sent (handle
             (auth_callback default_config sample_network
                (<["state" := field (session_after
                                       (handle (login default_config counter
                                                  Login) ∅))
                                "oauthState"]>
                   (<["code" := VStr "ABC123"]> ∅)))
             (session_after (handle (login default_config counter Login) ∅)))
     = Some (Redirect "/").
Proof.
  destruct (state_mode_recoverable default_config sample_network counter
              LoginPopup (VStr "ABC123") ∅ true
              [("access_token", VStr "T1"); ("refresh_token", VStr "R1");
               ("expires_in", VNum 3600)] "T1" "R1"
              eq_refl eq_refl eq_refl eq_refl
              (or_intror (ex_intro _ sample_profile
                 (ex_intro _ (VObj [("id", VStr "u1"); ("email", VStr "a@b.com")])
                    (conj eq_refl eq_refl)))))
    as (Hst & _ & _ & Hpopup & _).
  destruct (state_mode_recoverable default_config sample_network counter
              Login (VStr "ABC123") ∅ true
              [("access_token", VStr "T1"); ("refresh_token", VStr "R1");
               ("expires_in", VNum 3600)] "T1" "R1"
              eq_refl eq_refl eq_refl eq_refl
              (or_intror (ex_intro _ sample_profile
                 (ex_intro _ (VObj [("id", VStr "u1"); ("email", VStr "a@b.com")])
                    (conj eq_refl eq_refl)))))
    as (_ & _ & _ & Hredirect & _).
  split; [rewrite Hst; vm_compute; reflexivity|].
  split; [exact Hpopup | exact Hredirect].
Defined.
